(** * MetricsProvider (src/CountlyMetrics.ts): consent bookkeeping and
      session guards of the Countly facade.

    The class is embedded as a record of its fields plus two logs: the calls
    it makes on the wrapped analytics service and the calls it makes on the
    storage provider.  Every method is a function from state to state. *)

From Stdlib Require Import List String Bool Arith Lia.
Import ListNotations.
Open Scope string_scope.
Open Scope list_scope.

(** ** Plain JavaScript objects with string keys

    An object is the list of its own enumerable properties in enumeration
    order; a well-formed object has pairwise different keys. *)
Module JsObject.

Definition t (V : Type) : Type := list (string * V).

Definition keys {V} (o : t V) : list string := map fst o.

Definition values {V} (o : t V) : list V := map snd o.

(** [o[k]] for an own property; [None] when [k] is no own property, where
    [o[k]] is [undefined] or the member inherited from [Object.prototype]. *)
Fixpoint get {V} (k : string) (o : t V) : option V :=
  match o with
  | [] => None
  | (k', v) :: rest => if String.eqb k k' then Some v else get k rest
  end.

(** [k] is an own property of [o] ([Object.hasOwn (o, k)]). *)
Definition has {V} (k : string) (o : t V) : bool :=
  existsb (String.eqb k) (keys o).

(** The property names every plain object inherits from [Object.prototype]. *)
Definition Object_prototype : list string :=
  [ "constructor"; "hasOwnProperty"; "isPrototypeOf"; "propertyIsEnumerable";
    "toLocaleString"; "toString"; "valueOf"; "__proto__";
    "__defineGetter__"; "__defineSetter__"; "__lookupGetter__"; "__lookupSetter__" ].

Definition inherited (k : string) : bool :=
  existsb (String.eqb k) Object_prototype.

(** [k in o]: own properties and the prototype chain. *)
Definition is_in {V} (k : string) (o : t V) : bool :=
  has k o || inherited k.

(** [o[k] = v] for a key that is no array index (JavaScript enumerates those
    first): an existing property keeps its place, a new one goes last. *)
Fixpoint set {V} (k : string) (v : V) (o : t V) : t V :=
  match o with
  | [] => [(k, v)]
  | (k', v') :: rest =>
      if String.eqb k k' then (k, v) :: rest else (k', v') :: set k v rest
  end.

(** [{...o}]: the own properties copied one by one into a fresh object. *)
Definition spread {V} (o : t V) : t V :=
  fold_left (fun acc kv => set (fst kv) (snd kv) acc) o [].

Definition wf {V} (o : t V) : Prop := NoDup (keys o).

End JsObject.

(** ** JavaScript [Set] of strings: insertion-ordered, without repetition *)
Module JsSet.

Definition t : Type := list string.

Definition empty : t := [].

Definition has (x : string) (s : t) : bool := existsb (String.eqb x) s.

Definition add (x : string) (s : t) : t := if has x s then s else s ++ [x].

Definition delete (x : string) (s : t) : t :=
  filter (fun y => negb (String.eqb x y)) s.

(** [new Set(array)] *)
Definition of_array (l : list string) : t :=
  fold_left (fun s x => add x s) l empty.

(** [[...s]] and [Array.from(s)] *)
Definition to_array (s : t) : list string := s.

End JsSet.

(** ** Names *)

Definition consentTypes : Type := string.
Definition metricFeatures : Type := string.

(** [Array.prototype.flat()] on an array of arrays. *)
Definition flat {A} (l : list (list A)) : list A := List.concat l.

(** [mapAllEvents (eventMap)] returns [{...eventMap, all: Object.values(eventMap).flat()}]. *)
Definition mapAllEvents (eventMap : JsObject.t (list metricFeatures))
  : JsObject.t (list metricFeatures) :=
  JsObject.set "all" (flat (JsObject.values eventMap)) (JsObject.spread eventMap).

(** The object literal the class passes to [mapAllEvents]. *)
Definition eventMap_literal : JsObject.t (list metricFeatures) :=
  [ ("minimal", ["sessions"; "views"; "events"]);
    ("performance", ["crashes"; "apm"]);
    ("ux", ["scrolls"; "clicks"; "forms"]);
    ("feedback", ["star-rating"; "feedback"]);
    ("location", ["location"]) ].

Definition groupedFeatures : JsObject.t (list metricFeatures) :=
  mapAllEvents eventMap_literal.

(** ** The wrapped analytics service (external collaborator) *)

Definition Segments : Type := list (string * string).
Definition IgnoreList : Type := list string.

Record CountlyEvent : Type := { ev_key : string; ev_count : option nat; ev_segmentation : option Segments }.

(** The object handed to [init]: [{...COUNTLY_SETUP_DEFAULTS, ...remainderConfig, app_key}]
    (the two collaborator references it also carries are left out).  An
    optional property is [None] when the object has no such key, [Some None]
    when the key is there with the value [undefined], [Some (Some v)]
    otherwise. *)
Record ServiceConfig : Type := {
  app_key : string;
  cfg_autoTrack : option (option bool);
  cfg_interval : option (option nat);
  cfg_max_events : option (option nat);
  cfg_queue_size : option (option nat);
  cfg_session_update : option (option nat);
  cfg_url : option (option string) }.

(** One constructor per method of the service the facade calls. *)
Inductive sdk_call : Type :=
| init (serviceConfig : ServiceConfig)
| group_features (features : JsObject.t (list metricFeatures))
| add_consent (consent : list consentTypes)
| remove_consent (consent : list consentTypes) (enforceConsentUpdate : bool)
| track_clicks
| track_forms
| track_links
| track_scrolls
| track_sessions
| track_errors
| track_pageview
| track_view (page : option string) (ignoreList : option IgnoreList) (viewSegments : option Segments)
| add_event (event : CountlyEvent)
| recordError (error : string) (nonFatal : bool) (segments : Segments)
| begin_session (noHeartBeat force : bool)
| end_session (sec : option nat) (force : bool).

(** [T extends CountlyWebSdk | CountlyNodeSdk].  [check_consent] is a query:
    its answer is whatever the service decides from the calls made on it so
    far.  The five [has_*] fields say which of the web-only trackers exist
    (they are called through [?.()]). *)
Record CountlySdk : Type := {
  check_consent : list sdk_call -> string -> bool;
  has_track_clicks : bool;
  has_track_forms : bool;
  has_track_links : bool;
  has_track_scrolls : bool;
  has_track_sessions : bool }.

(** ** The storage provider (external, optional collaborator) *)

(** Modelled from the spec: [StorageProvider] (StorageProvider.ts is not among
    the sources): [getStore()] returns the stored list of category names,
    [setStore(categories)] overwrites it. *)
Record StorageProvider : Type := { stored : list consentTypes }.

Inductive storage_call : Type :=
| getStore
| setStore (categories : list consentTypes).

(** ** Constructor options and defaults *)

Module Options.
Record t : Type := {
  appKey : string;
  autoTrack : option (option bool);
  interval : option (option nat);
  max_events : option (option nat);
  metricsService : CountlySdk;
  queue_size : option (option nat);
  session_update : option (option nat);
  url : option (option string);
  (** [None]: absent; [Some None]: [null]. *)
  storageProvider : option (option StorageProvider) }.
End Options.

(** Modelled from the spec: [COUNTLY_SETUP_DEFAULTS] (config.ts is not among
    the sources), the setup options the facade falls back to.  It is a
    parameter of the constructor. *)
Module Defaults.
Record t : Type := {
  autoTrack : option (option bool);
  interval : option (option nat);
  max_events : option (option nat);
  queue_size : option (option nat);
  session_update : option (option nat);
  url : option (option string) }.
End Defaults.

(** One key of [{...defaults, ...given}]: the second object's property wins
    whenever it has the key ([Some _]), be its value [undefined]; the first
    object's property stays only when the second has no such key ([None]). *)
Definition spread_field {A} (default given : option A) : option A :=
  match given with Some v => Some v | None => default end.

Definition serviceConfig_of (defaults : Defaults.t) (config : Options.t) : ServiceConfig :=
  {| app_key := Options.appKey config;
     cfg_autoTrack := spread_field (Defaults.autoTrack defaults) (Options.autoTrack config);
     cfg_interval := spread_field (Defaults.interval defaults) (Options.interval config);
     cfg_max_events := spread_field (Defaults.max_events defaults) (Options.max_events config);
     cfg_queue_size := spread_field (Defaults.queue_size defaults) (Options.queue_size config);
     cfg_session_update := spread_field (Defaults.session_update defaults) (Options.session_update config);
     cfg_url := spread_field (Defaults.url defaults) (Options.url config) |}.

(** ** The facade's state *)

Record MetricsProvider : Type := mkMetricsProvider {
  sessionStarted : bool;
  _consentGranted : JsSet.t;
  metricsService : CountlySdk;
  storageProvider : option StorageProvider;
  initDone : bool;
  (** calls made on [metricsService], oldest first *)
  service_calls : list sdk_call;
  (** calls made on [storageProvider], oldest first *)
  storage_calls : list storage_call }.

Definition call_service (c : sdk_call) (this : MetricsProvider) : MetricsProvider :=
  mkMetricsProvider (sessionStarted this) (_consentGranted this) (metricsService this)
    (storageProvider this) (initDone this) (service_calls this ++ [c]) (storage_calls this).

Definition set_consentGranted (s : JsSet.t) (this : MetricsProvider) : MetricsProvider :=
  mkMetricsProvider (sessionStarted this) s (metricsService this)
    (storageProvider this) (initDone this) (service_calls this) (storage_calls this).

Definition set_sessionStarted (b : bool) (this : MetricsProvider) : MetricsProvider :=
  mkMetricsProvider b (_consentGranted this) (metricsService this)
    (storageProvider this) (initDone this) (service_calls this) (storage_calls this).

Definition set_initDone (b : bool) (this : MetricsProvider) : MetricsProvider :=
  mkMetricsProvider (sessionStarted this) (_consentGranted this) (metricsService this)
    (storageProvider this) b (service_calls this) (storage_calls this).

(** [get consentGranted] *)
Definition consentGranted (this : MetricsProvider) : list consentTypes :=
  JsSet.to_array (_consentGranted this).

(** ** Methods *)

(** The argument type [consentTypes | consentTypes[]]. *)
Inductive one_or_many : Type :=
| One (c : consentTypes)
| Many (cs : list consentTypes).

(** [if (!Array.isArray(consent)) consent = [consent]] *)
Definition as_array (consent : one_or_many) : list consentTypes :=
  match consent with
  | One c => [c]
  | Many cs => cs
  end.

Definition optional_call (defined : bool) (c : sdk_call) (this : MetricsProvider) : MetricsProvider :=
  if defined then call_service c this else this.

Definition setupAutoTrack (this : MetricsProvider) : MetricsProvider :=
  let webSdk := metricsService this in
  let this := optional_call (has_track_clicks webSdk) track_clicks this in
  let this := optional_call (has_track_forms webSdk) track_forms this in
  let this := optional_call (has_track_links webSdk) track_links this in
  let this := optional_call (has_track_scrolls webSdk) track_scrolls this in
  let this := optional_call (has_track_sessions webSdk) track_sessions this in
  let this := call_service track_errors this in
  let this := call_service track_pageview this in
  call_service (track_view None None None) this.

(** Writes only with a storage provider and out of the initialization phase. *)
Definition setConsentStore (this : MetricsProvider) : MetricsProvider :=
  match storageProvider this with
  | Some _ =>
      if initDone this then
        let categories := JsSet.to_array (_consentGranted this) in
        mkMetricsProvider (sessionStarted this) (_consentGranted this) (metricsService this)
          (Some {| stored := categories |}) (initDone this) (service_calls this)
          (storage_calls this ++ [setStore categories])
      else this
  | None => this
  end.

(** [this.storageProvider?.getStore() ?? []] *)
Definition getConsentStore (this : MetricsProvider) : list consentTypes * MetricsProvider :=
  match storageProvider this with
  | Some sp =>
      (stored sp,
       mkMetricsProvider (sessionStarted this) (_consentGranted this) (metricsService this)
         (storageProvider this) (initDone this) (service_calls this)
         (storage_calls this ++ [getStore]))
  | None => ([], this)
  end.

Definition addConsent (consent : one_or_many) (this : MetricsProvider) : MetricsProvider :=
  let consent := as_array consent in
  let this :=
    set_consentGranted (fold_left (fun s c => JsSet.add c s) consent (_consentGranted this)) this in
  let this := call_service (add_consent consent) this in
  setConsentStore this.

Definition removeConsent (consent : one_or_many) (this : MetricsProvider) : MetricsProvider :=
  let consent := as_array consent in
  let this :=
    set_consentGranted (fold_left (fun s c => JsSet.delete c s) consent (_consentGranted this)) this in
  let this := call_service (remove_consent consent true) this in
  setConsentStore this.

(** [a.every (p)] where [a] is read from an object: on an own property, an
    array, it is [Array.prototype.every]; otherwise ([None]) the value read is
    an inherited member of [Object.prototype], none of which has an [every],
    and the call raises a [TypeError], which the result [None] stands for. *)
Definition every {A} (a : option (list A)) (p : A -> bool) : option bool :=
  option_map (forallb p) a.

Definition checkConsent (consent : string) (this : MetricsProvider) : option bool :=
  let ask := check_consent (metricsService this) (service_calls this) in
  if JsObject.is_in consent groupedFeatures then
    every (JsObject.get consent groupedFeatures) ask
  else
    Some (ask consent).

Definition updateConsent (consent : list string) (this : MetricsProvider) : MetricsProvider :=
  let approvedConsent := JsSet.of_array consent in
  fold_left
    (fun this groupName =>
       if JsSet.has groupName approvedConsent
       then addConsent (One groupName) this
       else removeConsent (One groupName) this)
    (JsObject.keys groupedFeatures) this.

Definition trackView (page : option string) (ignoreList : option IgnoreList)
    (viewSegments : option Segments) (this : MetricsProvider) : MetricsProvider :=
  call_service (track_view page ignoreList viewSegments) this.

Definition trackEvent (event : CountlyEvent) (this : MetricsProvider) : MetricsProvider :=
  call_service (add_event event) this.

(** A parameter default applies when the argument is [undefined] ([None]). *)
Definition default_arg {A} (d : A) (a : option A) : A :=
  match a with Some v => v | None => d end.

Definition trackError (error : string) (nonFatal : option bool) (segments : option Segments)
    (this : MetricsProvider) : MetricsProvider :=
  call_service (recordError error (default_arg true nonFatal) (default_arg [] segments)) this.

Definition startSession (noHeartBeat force : option bool) (this : MetricsProvider) : MetricsProvider :=
  if negb (sessionStarted this) then
    let this := set_sessionStarted true this in
    call_service (begin_session (default_arg false noHeartBeat) (default_arg false force)) this
  else this.

Definition endSession (force : option bool) (this : MetricsProvider) : MetricsProvider :=
  if sessionStarted this then
    let this := call_service (end_session None (default_arg false force)) this in
    set_sessionStarted false this
  else this.

(** [x ?? null] *)
Definition or_null {A} (x : option (option A)) : option A :=
  match x with
  | Some (Some v) => Some v
  | _ => None
  end.

(** [if (autoTrack)] after destructuring: a missing key and [undefined] are
    both falsy. *)
Definition truthy (b : option (option bool)) : bool :=
  match b with
  | Some (Some v) => v
  | _ => false
  end.

(** [constructor (config)].  The [EventAccumulator] it creates only keeps the
    service reference and is not part of this state. *)
Definition constructor (COUNTLY_SETUP_DEFAULTS : Defaults.t) (config : Options.t) : MetricsProvider :=
  let serviceConfig := serviceConfig_of COUNTLY_SETUP_DEFAULTS config in
  let this :=
    {| sessionStarted := false;
       _consentGranted := JsSet.empty;
       metricsService := Options.metricsService config;
       storageProvider := or_null (Options.storageProvider config);
       initDone := false;
       service_calls := [];
       storage_calls := [] |} in
  let this := call_service (init serviceConfig) this in
  let this := call_service (group_features groupedFeatures) this in
  let this := if truthy (cfg_autoTrack serviceConfig) then setupAutoTrack this else this in
  let '(existingConsent, this) := getConsentStore this in
  let this :=
    if Nat.ltb 0 (List.length existingConsent)
    then addConsent (Many existingConsent) this
    else this in
  set_initDone true this.

(** ** Sequences of public operations *)

Inductive op : Type :=
| OpAddConsent (consent : one_or_many)
| OpRemoveConsent (consent : one_or_many)
| OpUpdateConsent (consent : list string)
| OpCheckConsent (consent : string)
| OpSetupAutoTrack
| OpTrackView (page : option string) (ignoreList : option IgnoreList) (viewSegments : option Segments)
| OpTrackEvent (event : CountlyEvent)
| OpTrackError (error : string) (nonFatal : option bool) (segments : option Segments)
| OpStartSession (noHeartBeat force : option bool)
| OpEndSession (force : option bool).

Definition perform (this : MetricsProvider) (o : op) : MetricsProvider :=
  match o with
  | OpAddConsent consent => addConsent consent this
  | OpRemoveConsent consent => removeConsent consent this
  | OpUpdateConsent consent => updateConsent consent this
  | OpCheckConsent _ => this
  | OpSetupAutoTrack => setupAutoTrack this
  | OpTrackView page ignoreList viewSegments => trackView page ignoreList viewSegments this
  | OpTrackEvent event => trackEvent event this
  | OpTrackError error nonFatal segments => trackError error nonFatal segments this
  | OpStartSession noHeartBeat force => startSession noHeartBeat force this
  | OpEndSession force => endSession force this
  end.

Definition run (ops : list op) (this : MetricsProvider) : MetricsProvider :=
  fold_left perform ops this.

(** ** Observations on the two logs *)

Definition is_begin_session (c : sdk_call) : bool :=
  match c with begin_session _ _ => true | _ => false end.

Definition is_end_session (c : sdk_call) : bool :=
  match c with end_session _ _ => true | _ => false end.

Definition is_remove_consent (c : sdk_call) : bool :=
  match c with remove_consent _ _ => true | _ => false end.

Definition is_add_consent (c : sdk_call) : bool :=
  match c with add_consent _ => true | _ => false end.

Definition is_setStore (c : storage_call) : bool :=
  match c with setStore _ => true | getStore => false end.

Definition count {A} (p : A -> bool) (l : list A) : nat := List.length (filter p l).

(** The category names a call hands to [add_consent] or [remove_consent]. *)
Definition forwarded (c : sdk_call) : list consentTypes :=
  match c with
  | add_consent l => l
  | remove_consent l _ => l
  | _ => []
  end.

(** [alternates active calls]: read from a session state [active], the
    [begin_session] and [end_session] calls of [calls] come in turn, a
    [begin_session] only when no session is on and an [end_session] only when
    one is.  [alternates false] is strict alternation starting with
    [begin_session]. *)
Fixpoint alternates (active : bool) (calls : list sdk_call) : bool :=
  match calls with
  | [] => true
  | begin_session _ _ :: rest => negb active && alternates true rest
  | end_session _ _ :: rest => active && alternates false rest
  | _ :: rest => alternates active rest
  end.

(** The session state the service is left in by [calls]. *)
Fixpoint active_after (active : bool) (calls : list sdk_call) : bool :=
  match calls with
  | [] => active
  | begin_session _ _ :: rest => active_after true rest
  | end_session _ _ :: rest => active_after false rest
  | _ :: rest => active_after active rest
  end.

(** [true] for each [begin_session] and [false] for each [end_session] of a
    log, in order; the other calls are dropped. *)
Definition session_kinds (calls : list sdk_call) : list bool :=
  map is_begin_session
    (filter (fun c => is_begin_session c || is_end_session c) calls).

(** [n] values in turn, the first being [b]. *)
Fixpoint in_turn (n : nat) (b : bool) : list bool :=
  match n with
  | 0 => []
  | S n => b :: in_turn n (negb b)
  end.

(** What [updateConsent] does for one catalog key. *)
Definition reconcile_call (consent : list string) (groupName : string) : sdk_call :=
  if JsSet.has groupName (JsSet.of_array consent)
  then add_consent [groupName]
  else remove_consent [groupName] true.


(** Typing: [consentTypes] are the keys of [groupedFeatures], which is a
    [Record<consentTypes, metricFeatures[]>]. *)
Definition is_consentType (c : string) : bool := JsObject.has c groupedFeatures.



(** ** The function interface of the same file

    [InitCountlyMetrics], [updateMetricsConsent], [acceptMetricsConsent],
    [declineMetricsConsent] and [getMetricsConsent] work on the global
    [Countly] object and on [localStorage]. *)
Module Functions.

(** The methods of [Countly] these functions call. *)
Inductive countly_call : Type :=
| init (app_key url : string) (require_consent : bool)
| group_features (features : JsObject.t (list string))
| add_consent (consent : one_or_many)
| track_clicks
| track_errors
| track_forms
| track_links
| track_pageview
| track_scrolls
| track_sessions
| track_view.

(** The log of calls on [Countly], oldest first, and the items of
    [localStorage]. *)
Record World : Type := mkWorld {
  countly : list countly_call;
  localStorage : JsObject.t string }.

Definition call (c : countly_call) (w : World) : World :=
  mkWorld (countly w ++ [c]) (localStorage w).

(** [localStorage.setItem (key, value)] *)
Definition setItem (key value : string) (w : World) : World :=
  mkWorld (countly w) (JsObject.set key value (localStorage w)).

(** [localStorage.getItem (key)]: [None] is [null]. *)
Definition getItem (key : string) (w : World) : option string :=
  JsObject.get key (localStorage w).

Definition necessaryFeatures : list string := ["sessions"; "views"].
Definition marketingFeatures : list string := ["attribution"; "users"; "location"].
Definition performanceFeatures : list string := ["events"; "crashes"; "apm"].
Definition trackingFeatures : list string :=
  ["scrolls"; "clicks"; "forms"; "star-rating"; "feedback"].

Definition InitCountlyMetrics (appKey url : string) (w : World) : World :=
  let w := call (init appKey url true) w in
  let w :=
    call (group_features
            [ ("all", necessaryFeatures ++ marketingFeatures
                      ++ performanceFeatures ++ trackingFeatures);
              ("necessary", necessaryFeatures);
              ("marketing", marketingFeatures);
              ("tracking", trackingFeatures);
              ("performance", performanceFeatures) ]) w in
  let w := call track_clicks w in
  let w := call track_errors w in
  let w := call track_forms w in
  let w := call track_links w in
  let w := call track_pageview w in
  let w := call track_scrolls w in
  let w := call track_sessions w in
  call track_view w.

Section WithJSON.

(** [JSON.stringify] on an array of strings, a builtin of the language. *)
Variable JSON_stringify : list string -> string.

Definition updateMetricsConsent (consent : one_or_many) (w : World) : World :=
  let w := call (add_consent consent) w in
  match consent with
  | Many cs => setItem "metrics_consent" (JSON_stringify cs) w
  | One c => setItem "metrics_consent" (JSON_stringify [c]) w
  end.

Definition acceptMetricsConsent (w : World) : World :=
  updateMetricsConsent (Many ["all"]) w.

Definition declineMetricsConsent (w : World) : World :=
  updateMetricsConsent (Many ["necessary"]) w.

Definition getMetricsConsent (w : World) : option string :=
  getItem "metrics_consent" w.

(** Calls of the exported functions, in sequence. *)
Inductive op : Type :=
| Init (appKey url : string)
| Update (consent : one_or_many)
| Accept
| Decline.

Definition perform (w : World) (o : op) : World :=
  match o with
  | Init appKey url => InitCountlyMetrics appKey url w
  | Update consent => updateMetricsConsent consent w
  | Accept => acceptMetricsConsent w
  | Decline => declineMetricsConsent w
  end.

Definition run (ops : list op) (w : World) : World := fold_left perform ops w.

End WithJSON.

(** The consent an operation hands over, if it is a consent operation. *)
Definition consent_of (o : op) : option one_or_many :=
  match o with
  | Init _ _ => None
  | Update consent => Some consent
  | Accept => Some (Many ["all"])
  | Decline => Some (Many ["necessary"])
  end.

(** The consent of the last consent operation of a sequence. *)
Definition last_consent (ops : list op) : option one_or_many :=
  fold_left (fun acc o => match consent_of o with Some c => Some c | None => acc end)
    ops None.

(** The [add_consent] calls of a log, in order. *)
Definition consents_added (calls : list countly_call) : list one_or_many :=
  flat_map (fun c => match c with add_consent consent => [consent] | _ => [] end) calls.

(** The consent operations of a sequence, in order. *)
Definition consents_given (ops : list op) : list one_or_many :=
  flat_map (fun o => match consent_of o with Some c => [c] | None => [] end) ops.

End Functions.

(** ** Vocabulary of the statements *)

(** The reconciliation loop of [updateConsent], over any list of names. *)
Definition reconcile (consent : list string) (names : list string)
    (this : MetricsProvider) : MetricsProvider :=
  fold_left
    (fun this groupName =>
       if JsSet.has groupName (JsSet.of_array consent)
       then addConsent (One groupName) this
       else removeConsent (One groupName) this)
    names this.

Definition has_store (this : MetricsProvider) : bool :=
  match storageProvider this with Some _ => true | None => false end.

Definition autoTrack_calls (sdk : CountlySdk) : list sdk_call :=
  (if has_track_clicks sdk then [track_clicks] else [])
  ++ (if has_track_forms sdk then [track_forms] else [])
  ++ (if has_track_links sdk then [track_links] else [])
  ++ (if has_track_scrolls sdk then [track_scrolls] else [])
  ++ (if has_track_sessions sdk then [track_sessions] else [])
  ++ [track_errors; track_pageview; track_view None None None].

(** The service calls one operation makes from a given state. *)
Definition emitted (this : MetricsProvider) (o : op) : list sdk_call :=
  match o with
  | OpAddConsent consent => [add_consent (as_array consent)]
  | OpRemoveConsent consent => [remove_consent (as_array consent) true]
  | OpUpdateConsent consent => map (reconcile_call consent) (JsObject.keys groupedFeatures)
  | OpCheckConsent _ => []
  | OpSetupAutoTrack => autoTrack_calls (metricsService this)
  | OpTrackView page ignoreList viewSegments => [track_view page ignoreList viewSegments]
  | OpTrackEvent event => [add_event event]
  | OpTrackError error nonFatal segments =>
      [recordError error (default_arg true nonFatal) (default_arg [] segments)]
  | OpStartSession noHeartBeat force =>
      if sessionStarted this then []
      else [begin_session (default_arg false noHeartBeat) (default_arg false force)]
  | OpEndSession force =>
      if sessionStarted this then [end_session None (default_arg false force)] else []
  end.

(** The fields other than the service log. *)
Definition rest_of (this : MetricsProvider) :=
  (sessionStarted this, _consentGranted this, metricsService this,
   storageProvider this, initDone this, storage_calls this).

(** What [getConsentStore] reads at construction. *)
Definition existing_consent (config : Options.t) : list consentTypes :=
  match or_null (Options.storageProvider config) with
  | Some sp => stored sp
  | None => []
  end.

Definition constructor_calls (defaults : Defaults.t) (config : Options.t) : list sdk_call :=
  [init (serviceConfig_of defaults config); group_features groupedFeatures]
  ++ (if truthy (cfg_autoTrack (serviceConfig_of defaults config))
      then autoTrack_calls (Options.metricsService config) else [])
  ++ (if Nat.ltb 0 (List.length (existing_consent config))
      then [add_consent (existing_consent config)] else []).

Definition is_session_call (c : sdk_call) : bool :=
  is_begin_session c || is_end_session c.

(** The service log records the session flag faithfully. *)
Definition session_inv (this : MetricsProvider) : Prop :=
  alternates false (service_calls this) = true
  /\ active_after false (service_calls this) = sessionStarted this.



(** Initialization is over and a storage provider is there. *)
Definition storing (this : MetricsProvider) : Prop := initDone this = true /\ has_store this = true.

(** No storage provider, and nothing ever asked of one. *)
Definition storeless (this : MetricsProvider) : Prop := storageProvider this = None /\ storage_calls this = [].

(** Membership of a name in an array, as a boolean. *)
Definition mem (x : string) (l : list string) : bool := existsb (String.eqb x) l.

(** The stored list, read back as a set, is the ledger. *)
Definition restorable (this : MetricsProvider) : Prop :=
  NoDup (_consentGranted this)
  /\ forall sp, storageProvider this = Some sp ->
               JsSet.of_array (stored sp) = _consentGranted this.

(** Storage holds the ledger. *)
Definition mirrored (this : MetricsProvider) : Prop :=
  storageProvider this = Some {| stored := consentGranted this |}.

Definition b2n (b : bool) : nat := if b then 1 else 0.

(** The arguments the facade fixes: [remove_consent] with [true],
    [end_session] without a duration. *)
Definition fixed_arguments (c : sdk_call) : bool :=
  match c with
  | remove_consent _ enforce => enforce
  | end_session None _ => true
  | end_session (Some _) _ => false
  | _ => true
  end.

(** A storage log that starts with the one read and goes on with writes. *)
Definition read_then_writes (calls : list storage_call) : bool :=
  match calls with
  | getStore :: writes => forallb is_setStore writes
  | _ => false
  end.

Definition is_tracking_op (o : op) : bool :=
  match o with
  | OpTrackView _ _ _ | OpTrackEvent _ | OpTrackError _ _ _ => true
  | _ => false
  end.

(** What one operation does to the ledger, as a function of the ledger alone. *)
Definition ledger_step (g : JsSet.t) (o : op) : JsSet.t :=
  match o with
  | OpAddConsent consent => fold_left (fun s c => JsSet.add c s) (as_array consent) g
  | OpRemoveConsent consent => fold_left (fun s c => JsSet.delete c s) (as_array consent) g
  | OpUpdateConsent consent =>
      fold_left
        (fun s groupName =>
           if JsSet.has groupName (JsSet.of_array consent)
           then JsSet.add groupName s
           else JsSet.delete groupName s)
        (JsObject.keys groupedFeatures) g
  | _ => g
  end.

Definition is_consent_op (o : op) : bool :=
  match o with
  | OpAddConsent _ | OpRemoveConsent _ | OpUpdateConsent _ => true
  | _ => false
  end.

(** ** A sample configuration, on which the statements are run

    The sample service grants a name once it was handed to [add_consent]. *)

Definition sample_sdk : CountlySdk :=
  {| check_consent := fun calls feature =>
       existsb (fun c => existsb (String.eqb feature) (forwarded c) && is_add_consent c) calls;
     has_track_clicks := true;
     has_track_forms := true;
     has_track_links := true;
     has_track_scrolls := true;
     has_track_sessions := true |}.

Definition sample_defaults : Defaults.t :=
  {| Defaults.autoTrack := Some (Some true);
     Defaults.interval := Some (Some 500);
     Defaults.max_events := Some (Some 10);
     Defaults.queue_size := Some (Some 1000);
     Defaults.session_update := Some (Some 60);
     Defaults.url := Some (Some "https://countly.example") |}.

Definition sample_options (storage : option (option StorageProvider)) : Options.t :=
  {| Options.appKey := "app-key";
     Options.autoTrack := None;
     Options.interval := None;
     Options.max_events := None;
     Options.metricsService := sample_sdk;
     Options.queue_size := None;
     Options.session_update := None;
     Options.url := None;
     Options.storageProvider := storage |}.

Definition with_performance_stored : Options.t :=
  sample_options (Some (Some {| stored := ["performance"] |})).

(** * Properties

    Helper lemmas come by topic; the statements about the program are the
    theorems marked C1 to C10. *)

(** The methods and the catalog are reasoned about through their lemmas;
    [simpl] leaves them folded. *)
Arguments groupedFeatures : simpl never.
Arguments addConsent : simpl never.
Arguments removeConsent : simpl never.
Arguments updateConsent : simpl never.
Arguments setupAutoTrack : simpl never.
Arguments constructor : simpl never.

(** ** Objects *)

Section ObjectFacts.
Context {V : Type}.
Implicit Types (o : JsObject.t V) (k : string) (v : V).

Lemma set_fresh k v o :
  ~ In k (JsObject.keys o) -> JsObject.set k v o = o ++ [(k, v)].
Proof.
  induction o as [|[k' v'] o IH]; simpl; intros Hk; [reflexivity|].
  destruct (String.eqb_spec k k') as [->|_].
  - exfalso. apply Hk. now left.
  - rewrite IH; [reflexivity|]. intros H. apply Hk. now right.
Qed.

Lemma spread_from acc o :
  NoDup (JsObject.keys (acc ++ o)) ->
  fold_left (fun a kv => JsObject.set (fst kv) (snd kv) a) o acc = acc ++ o.
Proof.
  revert acc. induction o as [|[k v] o IH]; intros acc Hnd; simpl.
  - now rewrite app_nil_r.
  - assert (Hk : ~ In k (JsObject.keys acc)).
    { unfold JsObject.keys in *. rewrite map_app in Hnd. simpl in Hnd.
      apply NoDup_remove_2 in Hnd. intros H. apply Hnd, in_or_app. now left. }
    rewrite (set_fresh _ _ _ Hk).
    replace (acc ++ (k, v) :: o) with ((acc ++ [(k, v)]) ++ o) in *
      by (rewrite <- app_assoc; reflexivity).
    now apply IH.
Qed.

Lemma spread_wf o : JsObject.wf o -> JsObject.spread o = o.
Proof. intros H. unfold JsObject.spread. now rewrite spread_from. Qed.

Lemma get_app_fresh k o o' :
  ~ In k (JsObject.keys o) -> JsObject.get k (o ++ o') = JsObject.get k o'.
Proof.
  induction o as [|[k' v'] o IH]; simpl; intros Hk; [reflexivity|].
  destruct (String.eqb_spec k k') as [->|_].
  - exfalso. apply Hk. now left.
  - apply IH. intros H. apply Hk. now right.
Qed.

Lemma get_app_other k k' v o :
  k <> k' -> JsObject.get k (o ++ [(k', v)]) = JsObject.get k o.
Proof.
  intros Hne. induction o as [|[k0 v0] o IH]; simpl.
  - now rewrite (proj2 (String.eqb_neq k k') Hne).
  - now destruct (String.eqb k k0).
Qed.

Lemma has_In k o : JsObject.has k o = true <-> In k (JsObject.keys o).
Proof.
  unfold JsObject.has. rewrite existsb_exists. split.
  - intros (x & Hx & E). apply String.eqb_eq in E. now subst.
  - intros H. exists k. split; [assumption|apply String.eqb_refl].
Qed.

Lemma has_get k o :
  JsObject.has k o = true -> exists v, JsObject.get k o = Some v.
Proof.
  rewrite has_In. induction o as [|[k' v'] o IH]; simpl; [tauto|].
  intros [<-|H].
  - rewrite String.eqb_refl. eauto.
  - destruct (String.eqb k k'); eauto.
Qed.

End ObjectFacts.

(** ** Sets *)

Section SetFacts.
Implicit Types (s : JsSet.t) (x y : string) (l : list string).

Lemma set_has_In x s : JsSet.has x s = true <-> In x s.
Proof.
  unfold JsSet.has. rewrite existsb_exists. split.
  - intros (z & Hz & E). apply String.eqb_eq in E. now subst.
  - intros H. exists x. split; [assumption|apply String.eqb_refl].
Qed.

Lemma In_add x y s : In y (JsSet.add x s) <-> y = x \/ In y s.
Proof.
  unfold JsSet.add. destruct (JsSet.has x s) eqn:E.
  - apply set_has_In in E. split; [tauto|]. intros [->|H]; assumption.
  - rewrite in_app_iff. simpl. intuition congruence.
Qed.

Lemma In_delete x y s : In y (JsSet.delete x s) <-> y <> x /\ In y s.
Proof.
  unfold JsSet.delete. rewrite filter_In, negb_true_iff, String.eqb_neq.
  intuition congruence.
Qed.

Lemma In_add_all l : forall s y,
  In y (fold_left (fun s c => JsSet.add c s) l s) <-> In y l \/ In y s.
Proof.
  induction l as [|c l IH]; intros s y; simpl; [tauto|].
  rewrite IH, In_add. intuition congruence.
Qed.

Lemma In_delete_all l : forall s y,
  In y (fold_left (fun s c => JsSet.delete c s) l s) <-> In y s /\ ~ In y l.
Proof.
  induction l as [|c l IH]; intros s y; simpl; [tauto|].
  rewrite IH, In_delete. intuition congruence.
Qed.

Lemma has_of_array x l : JsSet.has x (JsSet.of_array l) = true <-> In x l.
Proof.
  rewrite set_has_In. unfold JsSet.of_array. rewrite In_add_all.
  unfold JsSet.empty. simpl. tauto.
Qed.

Lemma NoDup_add x s : NoDup s -> NoDup (JsSet.add x s).
Proof.
  intros H. unfold JsSet.add. destruct (JsSet.has x s) eqn:E; [assumption|].
  apply NoDup_app; [assumption|repeat constructor; simpl; tauto|].
  intros z Hz [<-|[]]. apply set_has_In in Hz. congruence.
Qed.

Lemma NoDup_delete x s : NoDup s -> NoDup (JsSet.delete x s).
Proof. intros H. now apply NoDup_filter. Qed.

End SetFacts.

(** ** What each method leaves alone, and what it appends to the service log *)

Ltac unfold_methods :=
  unfold addConsent, removeConsent, setConsentStore, getConsentStore, trackView,
    trackEvent, trackError, startSession, endSession, optional_call,
    call_service, set_consentGranted, set_sessionStarted, set_initDone, consentGranted,
    JsSet.to_array in *.

Ltac by_cases_on_store this :=
  unfold_methods; simpl;
  destruct (storageProvider this); [destruct (initDone this)|]; reflexivity.

Section MethodFacts.
Implicit Types (this : MetricsProvider) (c : one_or_many).

Lemma setConsentStore_service_calls this :
  service_calls (setConsentStore this) = service_calls this.
Proof. by_cases_on_store this. Qed.

Lemma addConsent_service_calls c this :
  service_calls (addConsent c this)
  = service_calls this ++ [add_consent (as_array c)].
Proof. by_cases_on_store this. Qed.

Lemma removeConsent_service_calls c this :
  service_calls (removeConsent c this)
  = service_calls this ++ [remove_consent (as_array c) true].
Proof. by_cases_on_store this. Qed.

Lemma addConsent_granted c this :
  _consentGranted (addConsent c this)
  = fold_left (fun s x => JsSet.add x s) (as_array c) (_consentGranted this).
Proof. by_cases_on_store this. Qed.

Lemma removeConsent_granted c this :
  _consentGranted (removeConsent c this)
  = fold_left (fun s x => JsSet.delete x s) (as_array c) (_consentGranted this).
Proof. by_cases_on_store this. Qed.

Lemma addConsent_sessionStarted c this :
  sessionStarted (addConsent c this) = sessionStarted this.
Proof. by_cases_on_store this. Qed.

Lemma removeConsent_sessionStarted c this :
  sessionStarted (removeConsent c this) = sessionStarted this.
Proof. by_cases_on_store this. Qed.

Lemma addConsent_initDone c this :
  initDone (addConsent c this) = initDone this.
Proof. by_cases_on_store this. Qed.

Lemma removeConsent_initDone c this :
  initDone (removeConsent c this) = initDone this.
Proof. by_cases_on_store this. Qed.

Lemma addConsent_metricsService c this :
  metricsService (addConsent c this) = metricsService this.
Proof. by_cases_on_store this. Qed.

Lemma removeConsent_metricsService c this :
  metricsService (removeConsent c this) = metricsService this.
Proof. by_cases_on_store this. Qed.

(** The storage side of a ledger mutation: one [setStore] of the whole
    ledger when a provider is present and initialization is over. *)
Lemma addConsent_storage c this :
  (storageProvider (addConsent c this), storage_calls (addConsent c this))
  = match storageProvider this with
    | Some sp =>
        if initDone this
        then (Some {| stored := consentGranted (addConsent c this) |},
              storage_calls this ++ [setStore (consentGranted (addConsent c this))])
        else (Some sp, storage_calls this)
    | None => (None, storage_calls this)
    end.
Proof. by_cases_on_store this. Qed.

Lemma removeConsent_storage c this :
  (storageProvider (removeConsent c this), storage_calls (removeConsent c this))
  = match storageProvider this with
    | Some sp =>
        if initDone this
        then (Some {| stored := consentGranted (removeConsent c this) |},
              storage_calls this ++ [setStore (consentGranted (removeConsent c this))])
        else (Some sp, storage_calls this)
    | None => (None, storage_calls this)
    end.
Proof. by_cases_on_store this. Qed.

Lemma updateConsent_reconcile consent this :
  updateConsent consent this = reconcile consent (JsObject.keys groupedFeatures) this.
Proof. reflexivity. Qed.

Lemma reconcile_service_calls consent names : forall this,
  service_calls (reconcile consent names this)
  = service_calls this ++ map (reconcile_call consent) names.
Proof.
  induction names as [|k names IH]; intros this; simpl.
  - now rewrite app_nil_r.
  - unfold reconcile in *. simpl. rewrite IH. unfold reconcile_call.
    destruct (JsSet.has k (JsSet.of_array consent)).
    + rewrite addConsent_service_calls, <- app_assoc. reflexivity.
    + rewrite removeConsent_service_calls, <- app_assoc. reflexivity.
Qed.

Lemma reconcile_granted consent names : forall this x,
  In x (_consentGranted (reconcile consent names this))
  <-> (In x names /\ In x consent) \/ (In x (_consentGranted this) /\ ~ In x names).
Proof.
  induction names as [|k names IH]; intros this x; simpl; [tauto|].
  unfold reconcile in *. simpl. rewrite IH.
  destruct (in_dec string_dec x names) as [Hin|Hout];
    destruct (string_dec k x) as [->|Hne];
    destruct (JsSet.has _ (JsSet.of_array consent)) eqn:E;
    try (apply has_of_array in E);
    try (assert (~ In x consent) by (rewrite <- has_of_array; congruence));
    try (assert (~ In k consent) by (rewrite <- has_of_array; congruence));
    rewrite ?addConsent_granted, ?removeConsent_granted; simpl;
    rewrite ?In_add, ?In_delete; intuition congruence.
Qed.

End MethodFacts.

(** ** Invariants of the reconciliation loop and of operation sequences *)

Section Invariants.
Implicit Types (this : MetricsProvider) (c : one_or_many) (o : op).

Lemma reconcile_inv (P : MetricsProvider -> Prop) :
  (forall c s, P s -> P (addConsent c s)) ->
  (forall c s, P s -> P (removeConsent c s)) ->
  forall consent names this, P this -> P (reconcile consent names this).
Proof.
  intros Hadd Hrem consent names.
  induction names as [|k names IH]; intros this H; [exact H|].
  unfold reconcile in *. simpl. apply IH.
  destruct (JsSet.has k (JsSet.of_array consent)); auto.
Qed.

Lemma run_inv (P : MetricsProvider -> Prop) :
  (forall o s, P s -> P (perform s o)) ->
  forall ops this, P this -> P (run ops this).
Proof.
  intros Hstep ops. induction ops as [|o ops IH]; intros this H; [exact H|].
  unfold run in *. simpl. auto.
Qed.

Lemma run_snoc ops o this : run (ops ++ [o]) this = perform (run ops this) o.
Proof. unfold run. now rewrite fold_left_app. Qed.

Lemma call_service_service_calls call this :
  service_calls (call_service call this) = service_calls this ++ [call].
Proof. reflexivity. Qed.

Lemma optional_call_service_calls b call this :
  service_calls (optional_call b call this)
  = service_calls this ++ (if b then [call] else []).
Proof. destruct b; simpl; [reflexivity|now rewrite app_nil_r]. Qed.

Lemma optional_call_rest b call this : rest_of (optional_call b call this) = rest_of this.
Proof. now destruct b. Qed.

Lemma call_service_rest call this : rest_of (call_service call this) = rest_of this.
Proof. reflexivity. Qed.

Lemma setupAutoTrack_rest this : rest_of (setupAutoTrack this) = rest_of this.
Proof.
  unfold setupAutoTrack. cbv zeta.
  now rewrite !call_service_rest, !optional_call_rest.
Qed.

Lemma setupAutoTrack_service_calls this :
  service_calls (setupAutoTrack this)
  = service_calls this ++ autoTrack_calls (metricsService this).
Proof.
  unfold setupAutoTrack, autoTrack_calls. cbv zeta.
  rewrite !call_service_service_calls, !optional_call_service_calls, <- !app_assoc.
  reflexivity.
Qed.

Lemma setupAutoTrack_frame this :
  sessionStarted (setupAutoTrack this) = sessionStarted this
  /\ _consentGranted (setupAutoTrack this) = _consentGranted this
  /\ metricsService (setupAutoTrack this) = metricsService this
  /\ storageProvider (setupAutoTrack this) = storageProvider this
  /\ initDone (setupAutoTrack this) = initDone this
  /\ storage_calls (setupAutoTrack this) = storage_calls this.
Proof.
  pose proof (setupAutoTrack_rest this) as H. unfold rest_of in H.
  injection H as H1 H2 H3 H4 H5 H6. repeat split; assumption.
Qed.

Lemma updateConsent_frame consent this :
  sessionStarted (updateConsent consent this) = sessionStarted this
  /\ metricsService (updateConsent consent this) = metricsService this
  /\ initDone (updateConsent consent this) = initDone this.
Proof.
  rewrite updateConsent_reconcile.
  apply (reconcile_inv (fun s =>
    sessionStarted s = sessionStarted this
    /\ metricsService s = metricsService this
    /\ initDone s = initDone this)); [| |tauto].
  - intros c s. now rewrite addConsent_sessionStarted, addConsent_metricsService, addConsent_initDone.
  - intros c s. now rewrite removeConsent_sessionStarted, removeConsent_metricsService, removeConsent_initDone.
Qed.

Lemma perform_service_calls this o :
  service_calls (perform this o) = service_calls this ++ emitted this o.
Proof.
  destruct o; simpl.
  - apply addConsent_service_calls.
  - apply removeConsent_service_calls.
  - rewrite updateConsent_reconcile. apply reconcile_service_calls.
  - now rewrite app_nil_r.
  - apply setupAutoTrack_service_calls.
  - reflexivity.
  - reflexivity.
  - reflexivity.
  - unfold startSession. destruct (sessionStarted this); simpl; [now rewrite app_nil_r|reflexivity].
  - unfold endSession. destruct (sessionStarted this); simpl; [reflexivity|now rewrite app_nil_r].
Qed.

Lemma perform_sessionStarted this o :
  sessionStarted (perform this o)
  = match o with
    | OpStartSession _ _ => true
    | OpEndSession _ => false
    | _ => sessionStarted this
    end.
Proof.
  destruct o; simpl; try reflexivity.
  - apply addConsent_sessionStarted.
  - apply removeConsent_sessionStarted.
  - apply updateConsent_frame.
  - apply setupAutoTrack_frame.
  - unfold startSession. now destruct (sessionStarted this) eqn:E.
  - unfold endSession. now destruct (sessionStarted this) eqn:E.
Qed.

Lemma perform_initDone this o : initDone (perform this o) = initDone this.
Proof.
  destruct o; simpl; try reflexivity.
  - apply addConsent_initDone.
  - apply removeConsent_initDone.
  - apply updateConsent_frame.
  - apply setupAutoTrack_frame.
  - unfold startSession. now destruct (sessionStarted this).
  - unfold endSession. now destruct (sessionStarted this).
Qed.

End Invariants.

(** ** The state a finished constructor leaves *)

Section ConstructorFacts.
Variables (defaults : Defaults.t) (config : Options.t).

Lemma constructor_state :
  rest_of (constructor defaults config)
  = (false, JsSet.of_array (existing_consent config), Options.metricsService config,
     or_null (Options.storageProvider config), true,
     match or_null (Options.storageProvider config) with
     | Some _ => [getStore]
     | None => []
     end)
  /\ service_calls (constructor defaults config) = constructor_calls defaults config.
Proof.
  unfold constructor, constructor_calls, existing_consent. cbv zeta.
  set (s1 := call_service (group_features groupedFeatures) _).
  set (s2 := if truthy _ then setupAutoTrack s1 else s1).
  assert (Hrest : rest_of s2 = rest_of s1).
  { subst s2. destruct (truthy _); [apply setupAutoTrack_rest|reflexivity]. }
  assert (Hcalls : service_calls s2
                   = service_calls s1
                     ++ (if truthy (cfg_autoTrack (serviceConfig_of defaults config))
                         then autoTrack_calls (Options.metricsService config) else [])).
  { subst s2. destruct (truthy _); [|now rewrite app_nil_r].
    now rewrite setupAutoTrack_service_calls. }
  clearbody s2. subst s1. unfold rest_of in Hrest. simpl in Hrest, Hcalls.
  destruct s2 as [ss cg ms sp idn svc stc]. simpl in Hrest, Hcalls.
  injection Hrest as -> -> -> -> -> ->. subst svc.
  destruct (or_null (Options.storageProvider config)) as [[l]|]; simpl.
  - destruct l as [|x l]; simpl.
    + split; [reflexivity|]. now rewrite app_nil_r.
    + split; reflexivity.
  - split; [reflexivity|]. now rewrite app_nil_r.
Qed.

End ConstructorFacts.

(** ** Counting calls *)

Section Counting.
Context {A : Type} (p : A -> bool).

Lemma count_app l l' : count p (l ++ l') = count p l + count p l'.
Proof. unfold count. now rewrite filter_app, length_app. Qed.

Lemma count_none l : (forall c, In c l -> p c = false) -> count p l = 0.
Proof.
  unfold count. induction l as [|c l IH]; intros H; [reflexivity|].
  simpl. rewrite (H c) by now left. apply IH. intros; apply H. now right.
Qed.

End Counting.

Lemma autoTrack_calls_no_session sdk c :
  In c (autoTrack_calls sdk) -> is_session_call c = false.
Proof.
  unfold autoTrack_calls.
  destruct (has_track_clicks sdk), (has_track_forms sdk), (has_track_links sdk),
    (has_track_scrolls sdk), (has_track_sessions sdk); simpl;
    intuition (subst; reflexivity).
Qed.

Lemma constructor_calls_no_session defaults config c :
  In c (constructor_calls defaults config) -> is_session_call c = false.
Proof.
  unfold constructor_calls. rewrite !in_app_iff. intros [H|[H|H]].
  - simpl in H. intuition (subst; reflexivity).
  - destruct (truthy _); [eauto using autoTrack_calls_no_session|destruct H].
  - destruct (Nat.ltb _ _); simpl in H; intuition (subst; reflexivity).
Qed.

Lemma no_session_split c :
  is_session_call c = false -> is_begin_session c = false /\ is_end_session c = false.
Proof. unfold is_session_call. now rewrite orb_false_iff. Qed.

(** ** Claims on the catalog and on removal *)

(** C6. For every input mapping from category name to flag list without an
    [all] key, [mapAllEvents] returns the input mapping followed by one new
    key [all], whose flag list is the concatenation, in order, of the flag
    lists of the input's categories; every other key keeps its value. *)
Theorem mapAllEvents_appends_all (eventMap : JsObject.t (list metricFeatures)) :
  JsObject.wf eventMap ->
  ~ In "all" (JsObject.keys eventMap) ->
  mapAllEvents eventMap = eventMap ++ [("all", List.concat (JsObject.values eventMap))]
  /\ JsObject.keys (mapAllEvents eventMap) = JsObject.keys eventMap ++ ["all"]
  /\ JsObject.get "all" (mapAllEvents eventMap) = Some (List.concat (JsObject.values eventMap))
  /\ (forall k, k <> "all" ->
        JsObject.get k (mapAllEvents eventMap) = JsObject.get k eventMap).
Proof.
  intros Hwf Hall.
  assert (E : mapAllEvents eventMap
              = eventMap ++ [("all", List.concat (JsObject.values eventMap))]).
  { unfold mapAllEvents, flat. rewrite (spread_wf _ Hwf). now apply set_fresh. }
  rewrite E. repeat split.
  - unfold JsObject.keys. now rewrite map_app.
  - rewrite get_app_fresh by assumption. simpl. reflexivity.
  - intros k Hk. now apply get_app_other.
Qed.

Lemma eventMap_literal_wf : JsObject.wf eventMap_literal.
Proof.
  unfold JsObject.wf, eventMap_literal. simpl.
  repeat constructor; simpl; intuition discriminate.
Defined.

Lemma eventMap_literal_no_all : ~ In "all" (JsObject.keys eventMap_literal).
Proof. simpl. intuition discriminate. Defined.

Lemma mapAllEvents_appends_all_witness :
  JsObject.wf eventMap_literal
  /\ ~ In "all" (JsObject.keys eventMap_literal)
  /\ groupedFeatures
     = eventMap_literal
       ++ [("all", ["sessions"; "views"; "events"; "crashes"; "apm"; "scrolls"; "clicks";
                    "forms"; "star-rating"; "feedback"; "location"])].
Proof.
  split; [exact eventMap_literal_wf|].
  split; [exact eventMap_literal_no_all|].
  exact (proj1 (mapAllEvents_appends_all eventMap_literal
                  eventMap_literal_wf eventMap_literal_no_all)).
Defined.

(** C7. [removeConsent (c)] on a single category [c] deletes [c] from the
    ledger, and nothing else, and makes exactly one [remove_consent] call on
    the service, with [[c]] and [true]; [removeConsent (cs)] on a list [cs]
    deletes each category of [cs], and nothing else, and makes exactly one
    [remove_consent] call, with [cs] and [true]. *)
Theorem removeConsent_deletes_and_calls_once
    (c : consentTypes) (cs : list consentTypes) (this : MetricsProvider) :
  ((forall x, In x (consentGranted (removeConsent (One c) this))
              <-> In x (consentGranted this) /\ x <> c)
   /\ service_calls (removeConsent (One c) this)
      = service_calls this ++ [remove_consent [c] true]
   /\ count is_remove_consent (service_calls (removeConsent (One c) this))
      = S (count is_remove_consent (service_calls this)))
  /\ ((forall x, In x (consentGranted (removeConsent (Many cs) this))
                 <-> In x (consentGranted this) /\ ~ In x cs)
      /\ service_calls (removeConsent (Many cs) this)
         = service_calls this ++ [remove_consent cs true]
      /\ count is_remove_consent (service_calls (removeConsent (Many cs) this))
         = S (count is_remove_consent (service_calls this))).
Proof.
  split; (split; [|split]).
  - intros x. unfold consentGranted, JsSet.to_array.
    rewrite removeConsent_granted, In_delete_all. simpl. intuition congruence.
  - apply removeConsent_service_calls.
  - rewrite removeConsent_service_calls, count_app. unfold count at 2. simpl. lia.
  - intros x. unfold consentGranted, JsSet.to_array.
    now rewrite removeConsent_granted, In_delete_all.
  - apply removeConsent_service_calls.
  - rewrite removeConsent_service_calls, count_app. unfold count at 2. simpl. lia.
Qed.

(** ** Sessions *)

Section Sessions.
Implicit Types (calls : list sdk_call) (active : bool).

Lemma alternates_app calls : forall active calls',
  alternates active (calls ++ calls')
  = alternates active calls && alternates (active_after active calls) calls'.
Proof.
  induction calls as [|c calls IH]; intros active calls'; [reflexivity|].
  destruct c; simpl; rewrite ?IH, ?andb_assoc; reflexivity.
Qed.

Lemma active_after_app calls : forall active calls',
  active_after active (calls ++ calls') = active_after (active_after active calls) calls'.
Proof.
  induction calls as [|c calls IH]; intros active calls'; [reflexivity|].
  destruct c; simpl; apply IH.
Qed.

Lemma no_session_alternates calls active :
  (forall c, In c calls -> is_session_call c = false) ->
  alternates active calls = true /\ active_after active calls = active.
Proof.
  induction calls as [|c calls IH]; intros H; [split; reflexivity|].
  assert (Hc : is_session_call c = false) by (apply H; now left).
  assert (IH' := IH (fun c' Hc' => H c' (or_intror Hc'))).
  destruct c; simpl; try exact IH'; discriminate Hc.
Qed.

Lemma alternates_in_turn calls : forall active,
  alternates active calls = true ->
  session_kinds calls = in_turn (List.length (session_kinds calls)) (negb active).
Proof.
  unfold session_kinds.
  induction calls as [|c calls IH]; intros active H; [reflexivity|].
  destruct c; simpl in *; try (now apply IH).
  - apply andb_true_iff in H as [Ha H]. rewrite Ha.
    f_equal. apply negb_true_iff in Ha. subst active. exact (IH true H).
  - apply andb_true_iff in H as [Ha H]. subst active. simpl.
    f_equal. exact (IH false H).
Qed.

Lemma reconcile_call_no_session consent names c :
  In c (map (reconcile_call consent) names) -> is_session_call c = false.
Proof.
  rewrite in_map_iff. intros (k & <- & _). unfold reconcile_call.
  now destruct (JsSet.has _ _).
Qed.

Lemma emitted_session this o :
  alternates (sessionStarted this) (emitted this o) = true
  /\ active_after (sessionStarted this) (emitted this o) = sessionStarted (perform this o).
Proof.
  rewrite perform_sessionStarted.
  destruct o; cbn [emitted].
  - split; reflexivity.
  - split; reflexivity.
  - apply no_session_alternates, reconcile_call_no_session.
  - split; reflexivity.
  - apply no_session_alternates, autoTrack_calls_no_session.
  - split; reflexivity.
  - split; reflexivity.
  - split; reflexivity.
  - destruct (sessionStarted this) eqn:E; split; reflexivity.
  - destruct (sessionStarted this) eqn:E; split; reflexivity.
Qed.

Lemma perform_session_inv o this : session_inv this -> session_inv (perform this o).
Proof.
  unfold session_inv. intros [Halt Hact].
  rewrite perform_service_calls, alternates_app, active_after_app, Halt, Hact.
  exact (emitted_session this o).
Qed.

Lemma constructor_session_inv defaults config :
  session_inv (constructor defaults config).
Proof.
  destruct (constructor_state defaults config) as [Hrest Hcalls].
  unfold session_inv. rewrite Hcalls.
  assert (Hs : sessionStarted (constructor defaults config) = false).
  { unfold rest_of in Hrest. now injection Hrest. }
  rewrite Hs. apply no_session_alternates, constructor_calls_no_session.
Qed.

End Sessions.

Section SessionGuards.
Implicit Types (this : MetricsProvider).

Lemma startSession_inactive noHeartBeat force this :
  sessionStarted this = false ->
  startSession noHeartBeat force this
  = call_service (begin_session (default_arg false noHeartBeat) (default_arg false force))
      (set_sessionStarted true this).
Proof. intros H. unfold startSession. now rewrite H. Qed.

Lemma startSession_active noHeartBeat force this :
  sessionStarted this = true -> startSession noHeartBeat force this = this.
Proof. intros H. unfold startSession. now rewrite H. Qed.

Lemma endSession_inactive force this :
  sessionStarted this = false -> endSession force this = this.
Proof. intros H. unfold endSession. now rewrite H. Qed.

Lemma endSession_active force this :
  sessionStarted this = true ->
  endSession force this
  = set_sessionStarted false (call_service (end_session None (default_arg false force)) this).
Proof. intros H. unfold endSession. now rewrite H. Qed.

Lemma constructor_inactive defaults config :
  sessionStarted (constructor defaults config) = false.
Proof.
  destruct (constructor_state defaults config) as [Hrest _].
  unfold rest_of in Hrest. now injection Hrest.
Qed.

Lemma constructor_no_session_calls defaults config :
  count is_begin_session (service_calls (constructor defaults config)) = 0
  /\ count is_end_session (service_calls (constructor defaults config)) = 0.
Proof.
  destruct (constructor_state defaults config) as [_ ->].
  split; apply count_none; intros c Hc;
    apply constructor_calls_no_session, no_session_split in Hc; tauto.
Qed.

End SessionGuards.

(** ** Claims on sessions and on consent checks *)

(** C4. From the state the constructor leaves (no session), two
    [startSession] calls in a row make exactly one [begin_session] call on the
    service, the one of the first call; an [endSession] call before any
    [startSession] makes no [end_session] call. *)
Theorem startSession_twice_begins_once
    (defaults : Defaults.t) (config : Options.t)
    (noHeartBeat1 force1 noHeartBeat2 force2 force : option bool) :
  service_calls
    (startSession noHeartBeat2 force2
       (startSession noHeartBeat1 force1 (constructor defaults config)))
  = service_calls (constructor defaults config)
    ++ [begin_session (default_arg false noHeartBeat1) (default_arg false force1)]
  /\ count is_begin_session
       (service_calls
          (startSession noHeartBeat2 force2
             (startSession noHeartBeat1 force1 (constructor defaults config)))) = 1
  /\ service_calls (endSession force (constructor defaults config))
     = service_calls (constructor defaults config)
  /\ count is_end_session
       (service_calls (endSession force (constructor defaults config))) = 0.
Proof.
  pose proof (constructor_inactive defaults config) as Hoff.
  pose proof (constructor_no_session_calls defaults config) as [Hb He].
  rewrite (startSession_inactive noHeartBeat1 force1 _ Hoff).
  rewrite startSession_active by reflexivity.
  rewrite (endSession_inactive force _ Hoff).
  rewrite call_service_service_calls.
  change (service_calls (set_sessionStarted true ?s)) with (service_calls s).
  rewrite count_app, Hb, He. repeat split.
Qed.

(** C10. Whatever public operations are run after construction, and so for
    every sequence of [startSession] and [endSession] calls, the
    [begin_session] and [end_session] calls made on the service come strictly
    in turn, the first being a [begin_session].  After a [startSession] and an
    [endSession], a further [startSession] makes a new [begin_session] call. *)
Theorem session_calls_alternate (defaults : Defaults.t) (config : Options.t) (ops : list op) :
  session_kinds (service_calls (run ops (constructor defaults config)))
  = in_turn (List.length (session_kinds (service_calls (run ops (constructor defaults config)))))
      true
  /\ forall noHeartBeat1 force1 force2 noHeartBeat3 force3,
       service_calls
         (run [OpStartSession noHeartBeat1 force1; OpEndSession force2;
               OpStartSession noHeartBeat3 force3]
              (constructor defaults config))
       = service_calls (constructor defaults config)
         ++ [begin_session (default_arg false noHeartBeat1) (default_arg false force1);
             end_session None (default_arg false force2);
             begin_session (default_arg false noHeartBeat3) (default_arg false force3)].
Proof.
  split.
  - apply (alternates_in_turn _ false).
    apply (run_inv session_inv perform_session_inv ops _
             (constructor_session_inv defaults config)).
  - intros. pose proof (constructor_inactive defaults config) as Hoff.
    unfold run. simpl.
    rewrite (startSession_inactive noHeartBeat1 force1 _ Hoff).
    rewrite endSession_active by reflexivity.
    rewrite startSession_inactive by reflexivity.
    rewrite !call_service_service_calls.
    change (service_calls (set_sessionStarted true ?s)) with (service_calls s).
    change (service_calls (set_sessionStarted false ?s)) with (service_calls s).
    rewrite !call_service_service_calls.
    change (service_calls (set_sessionStarted true ?s)) with (service_calls s).
    now rewrite <- !app_assoc.
Qed.

Lemma get_absent {V} (k : string) (o : JsObject.t V) :
  JsObject.has k o = false -> JsObject.get k o = None.
Proof.
  unfold JsObject.has. induction o as [|[k' v'] o IH]; simpl; [reflexivity|].
  destruct (String.eqb k k'); [discriminate|exact IH].
Qed.

(** What [checkConsent] returns, by the three cases of its argument. *)
Lemma checkConsent_cases (x : string) (this : MetricsProvider) :
  checkConsent x this
  = match JsObject.get x groupedFeatures with
    | Some flags =>
        Some (forallb (check_consent (metricsService this) (service_calls this)) flags)
    | None =>
        if JsObject.inherited x then None
        else Some (check_consent (metricsService this) (service_calls this) x)
    end.
Proof.
  unfold checkConsent, JsObject.is_in.
  destruct (JsObject.has x groupedFeatures) eqn:E.
  - destruct (has_get _ _ E) as [flags ->]. reflexivity.
  - rewrite (get_absent _ _ E). simpl. now destruct (JsObject.inherited x).
Qed.

(** C5, as the code has it.  When [x] is a key of the grouped-features
    catalog, [checkConsent (x)] returns the conjunction of the service's
    [check_consent] over the member flags of [x]: it is true iff every member
    flag is granted, and one flag that is off makes it false.  When [x] is no
    key of the catalog and no property name inherited from
    [Object.prototype], it returns [check_consent (x)].  When [x] is no key of
    the catalog but is such an inherited name, [x in groupedFeatures] holds all
    the same and the call raises a [TypeError]. *)
Theorem checkConsent_is_conjunction (x : string) (this : MetricsProvider) :
  let ask := check_consent (metricsService this) (service_calls this) in
  (JsObject.has x groupedFeatures = true ->
     exists flags,
       JsObject.get x groupedFeatures = Some flags
       /\ checkConsent x this = Some (forallb ask flags)
       /\ (checkConsent x this = Some true <-> forall f, In f flags -> ask f = true)
       /\ (forall f, In f flags -> ask f = false -> checkConsent x this = Some false))
  /\ (JsObject.has x groupedFeatures = false -> JsObject.inherited x = false ->
      checkConsent x this = Some (ask x))
  /\ (JsObject.has x groupedFeatures = false -> JsObject.inherited x = true ->
      checkConsent x this = None)
  /\ checkConsent "minimal" this = Some (ask "sessions" && (ask "views" && (ask "events" && true))).
Proof.
  intros ask. split; [|split; [|split]].
  - intros Hin. destruct (has_get _ _ Hin) as [flags Hget]. exists flags.
    assert (E : checkConsent x this = Some (forallb ask flags)).
    { rewrite checkConsent_cases, Hget. reflexivity. }
    rewrite E. split; [assumption|]. split; [reflexivity|]. split; [split|].
    + intros H. injection H as H. rewrite forallb_forall in H. exact H.
    + intros H. f_equal. apply forallb_forall. exact H.
    + intros f Hf Hoff. f_equal. apply not_true_is_false. intros Hall.
      rewrite forallb_forall in Hall. rewrite (Hall f Hf) in Hoff. discriminate.
  - intros Hout Hown. now rewrite checkConsent_cases, (get_absent _ _ Hout), Hown.
  - intros Hout Hinh. now rewrite checkConsent_cases, (get_absent _ _ Hout), Hinh.
  - reflexivity.
Qed.

(** C5 as stated fails: [toString] is no key of the catalog, and
    [checkConsent ('toString')] does not return [check_consent ('toString')]
    but raises a [TypeError]. *)
Lemma checkConsent_toString_raises :
  JsObject.has "toString" groupedFeatures = false
  /\ checkConsent "toString" (constructor sample_defaults (sample_options None)) = None.
Proof. split; reflexivity. Qed.

(** ** Ledger and storage across operations *)

Section LedgerFacts.
Implicit Types (this : MetricsProvider) (o : op).

(** The operations that are not consent operations leave ledger and storage alone. *)
Lemma perform_other this o :
  match o with
  | OpAddConsent _ | OpRemoveConsent _ | OpUpdateConsent _ => True
  | _ =>
      _consentGranted (perform this o) = _consentGranted this
      /\ storageProvider (perform this o) = storageProvider this
      /\ storage_calls (perform this o) = storage_calls this
  end.
Proof.
  destruct o; cbn [perform]; trivial; try (repeat split; reflexivity).
  - pose proof (setupAutoTrack_frame this). tauto.
  - unfold startSession. destruct (sessionStarted this); repeat split.
  - unfold endSession. destruct (sessionStarted this); repeat split.
Qed.





Lemma constructor_granted defaults config :
  _consentGranted (constructor defaults config) = JsSet.of_array (existing_consent config).
Proof.
  destruct (constructor_state defaults config) as [Hrest _].
  unfold rest_of in Hrest. now injection Hrest.
Qed.






Lemma addConsent_storing c this : storing this -> storing (addConsent c this).
Proof.
  unfold storing, has_store. intros [Hi Hs]. rewrite addConsent_initDone.
  pose proof (addConsent_storage c this) as E.
  destruct (storageProvider this); [|discriminate]. rewrite Hi in E.
  injection E as -> _. tauto.
Qed.

Lemma removeConsent_storing c this : storing this -> storing (removeConsent c this).
Proof.
  unfold storing, has_store. intros [Hi Hs]. rewrite removeConsent_initDone.
  pose proof (removeConsent_storage c this) as E.
  destruct (storageProvider this); [|discriminate]. rewrite Hi in E.
  injection E as -> _. tauto.
Qed.

Lemma perform_storing o this : storing this -> storing (perform this o).
Proof.
  intros H. pose proof (perform_other this o) as Hother.
  pose proof (perform_initDone this o) as Hdone.
  destruct o;
    try (unfold storing, has_store in *; destruct Hother as (_ & E & _);
         destruct H as [H1 H2]; split; [exact (eq_trans Hdone H1)|];
         exact (eq_ind_r (fun p => match p with Some _ => true | None => false end = true) H2 E));
    cbn [perform].
  - now apply addConsent_storing.
  - now apply removeConsent_storing.
  - rewrite updateConsent_reconcile.
    apply reconcile_inv; auto using addConsent_storing, removeConsent_storing.
Qed.

Lemma addConsent_storeless c this : storeless this -> storeless (addConsent c this).
Proof.
  unfold storeless. intros [Hs Hc]. pose proof (addConsent_storage c this) as E.
  rewrite Hs, Hc in E. now injection E.
Qed.

Lemma removeConsent_storeless c this : storeless this -> storeless (removeConsent c this).
Proof.
  unfold storeless. intros [Hs Hc]. pose proof (removeConsent_storage c this) as E.
  rewrite Hs, Hc in E. now injection E.
Qed.

Lemma perform_storeless o this : storeless this -> storeless (perform this o).
Proof.
  intros H. pose proof (perform_other this o) as Hother.
  destruct o;
    try (unfold storeless in *; destruct Hother as (_ & E1 & E2);
         destruct H as [H1 H2]; split; [exact (eq_trans E1 H1)|exact (eq_trans E2 H2)]);
    cbn [perform].
  - now apply addConsent_storeless.
  - now apply removeConsent_storeless.
  - rewrite updateConsent_reconcile.
    apply reconcile_inv; auto using addConsent_storeless, removeConsent_storeless.
Qed.

End LedgerFacts.

(** ** Claims on consent *)

Lemma reconcile_ext consent consent' names : forall this,
  (forall k, In k names ->
     JsSet.has k (JsSet.of_array consent) = JsSet.has k (JsSet.of_array consent')) ->
  reconcile consent names this = reconcile consent' names this.
Proof.
  induction names as [|k names IH]; intros this H; [reflexivity|].
  unfold reconcile in *. simpl. rewrite (H k) by now left.
  apply IH. intros k' Hk'. apply H. now right.
Qed.

Lemma all_is_a_key : In "all" (JsObject.keys groupedFeatures).
Proof. apply has_In. reflexivity. Qed.




(** C9. For every input list [consent] and every state, [updateConsent
    (consent)] adds to the ledger only keys of the grouped-features catalog,
    hands to [add_consent] and [remove_consent] only such keys, and does the
    same as on the input with the names outside the catalog taken out. *)
Theorem updateConsent_ignores_unknown_names (consent : list string) (this : MetricsProvider) :
  (forall x, In x (consentGranted (updateConsent consent this)) ->
             In x (consentGranted this)
             \/ (In x (JsObject.keys groupedFeatures) /\ In x consent))
  /\ (exists calls,
        service_calls (updateConsent consent this) = service_calls this ++ calls
        /\ forall c name, In c calls -> In name (forwarded c) ->
                          In name (JsObject.keys groupedFeatures))
  /\ updateConsent consent this = updateConsent (filter is_consentType consent) this.
Proof.
  split; [|split].
  - intros x. unfold consentGranted, JsSet.to_array.
    rewrite updateConsent_reconcile, reconcile_granted. tauto.
  - exists (map (reconcile_call consent) (JsObject.keys groupedFeatures)). split.
    + rewrite updateConsent_reconcile. apply reconcile_service_calls.
    + intros c name Hc Hname. apply in_map_iff in Hc as (k & <- & Hk).
      unfold reconcile_call in Hname.
      destruct (JsSet.has k _); simpl in Hname; destruct Hname as [<-|[]]; exact Hk.
  - rewrite !updateConsent_reconcile. apply reconcile_ext. intros k Hk.
    apply eq_iff_eq_true. rewrite !has_of_array, filter_In.
    unfold is_consentType. rewrite has_In. intuition (subst; assumption).
Qed.




(** C3. With a storage provider present, [addConsent] and [removeConsent],
    called at any point after construction, each write the whole ledger to
    storage, once, so that storage holds the ledger; the constructor makes no
    [setStore] call, and with [["performance"]] persisted it leaves
    [consentGranted] equal to [["performance"]]. *)
Theorem storage_mirrors_ledger_after_construction
    (defaults : Defaults.t) (config : Options.t) (sp : StorageProvider)
    (ops : list op) (consent : one_or_many) :
  Options.storageProvider config = Some (Some sp) ->
  let this := run ops (constructor defaults config) in
  (storageProvider (addConsent consent this)
     = Some {| stored := consentGranted (addConsent consent this) |}
   /\ storage_calls (addConsent consent this)
      = storage_calls this ++ [setStore (consentGranted (addConsent consent this))])
  /\ (storageProvider (removeConsent consent this)
        = Some {| stored := consentGranted (removeConsent consent this) |}
      /\ storage_calls (removeConsent consent this)
         = storage_calls this ++ [setStore (consentGranted (removeConsent consent this))])
  /\ count is_setStore (storage_calls (constructor defaults config)) = 0
  /\ (stored sp = ["performance"] ->
      consentGranted (constructor defaults config) = ["performance"]).
Proof.
  intros Hsp this.
  destruct (constructor_state defaults config) as [Hrest _].
  unfold rest_of in Hrest. rewrite Hsp in Hrest. simpl in Hrest.
  injection Hrest as _ Hledger _ Hstore Hdone Hcalls.
  assert (Hthis : storing this).
  { apply (run_inv storing perform_storing). unfold storing, has_store.
    now rewrite Hdone, Hstore. }
  destruct Hthis as [Hi Hs]. unfold has_store in Hs.
  pose proof (addConsent_storage consent this) as Ea.
  pose proof (removeConsent_storage consent this) as Er.
  destruct (storageProvider this); [|discriminate].
  rewrite Hi in Ea, Er. injection Ea as Ea1 Ea2. injection Er as Er1 Er2.
  repeat split; try assumption.
  - now rewrite Hcalls.
  - intros Hperf. unfold consentGranted, JsSet.to_array. rewrite Hledger.
    unfold existing_consent. rewrite Hsp. simpl. now rewrite Hperf.
Qed.

Lemma storage_mirrors_ledger_after_construction_witness :
  Options.storageProvider with_performance_stored = Some (Some {| stored := ["performance"] |})
  /\ storage_calls
       (addConsent (One "ux")
          (run [OpStartSession None None]
               (constructor sample_defaults with_performance_stored)))
     = storage_calls
         (run [OpStartSession None None]
              (constructor sample_defaults with_performance_stored))
       ++ [setStore
             (consentGranted
                (addConsent (One "ux")
                   (run [OpStartSession None None]
                        (constructor sample_defaults with_performance_stored))))]
  /\ consentGranted (constructor sample_defaults with_performance_stored) = ["performance"].
Proof.
  split; [reflexivity|]. split.
  - exact (proj2 (proj1 (storage_mirrors_ledger_after_construction sample_defaults
                           with_performance_stored {| stored := ["performance"] |}
                           [OpStartSession None None] (One "ux") eq_refl))).
  - exact (proj2 (proj2 (proj2 (storage_mirrors_ledger_after_construction sample_defaults
                                   with_performance_stored {| stored := ["performance"] |}
                                   [OpStartSession None None] (One "ux") eq_refl)))
             eq_refl).
Defined.

(** C8, as the code has it.  Without a storage provider (absent or [null]):
    reading the consent store gives the empty list, the constructor restores
    no consent (empty ledger, no [add_consent] call), and whatever public
    operations follow, the facade stays without provider and no storage call
    is ever made; [checkConsent] returns a boolean on every name that is not
    inherited from [Object.prototype]. *)
Theorem no_storage_provider_is_tolerated
    (defaults : Defaults.t) (config : Options.t) (ops : list op) :
  Options.storageProvider config = None \/ Options.storageProvider config = Some None ->
  (forall this, storageProvider this = None -> getConsentStore this = ([], this))
  /\ existing_consent config = []
  /\ consentGranted (constructor defaults config) = []
  /\ count is_add_consent (service_calls (constructor defaults config)) = 0
  /\ storageProvider (run ops (constructor defaults config)) = None
  /\ storage_calls (run ops (constructor defaults config)) = []
  /\ (forall x, JsObject.inherited x = false ->
        exists b, checkConsent x (run ops (constructor defaults config)) = Some b).
Proof.
  intros Hnone.
  assert (Hnull : or_null (Options.storageProvider config) = None).
  { destruct Hnone as [-> | ->]; reflexivity. }
  destruct (constructor_state defaults config) as [Hrest Hcalls].
  unfold rest_of in Hrest. rewrite Hnull in Hrest.
  injection Hrest as _ Hledger _ Hstore _ Hlog.
  assert (Hex : existing_consent config = []).
  { unfold existing_consent. now rewrite Hnull. }
  assert (Hrun : storeless (run ops (constructor defaults config))).
  { apply (run_inv storeless perform_storeless). split; assumption. }
  split; [|split; [|split; [|split; [|split; [|split]]]]].
  - intros this H. unfold getConsentStore. now rewrite H.
  - exact Hex.
  - unfold consentGranted, JsSet.to_array. rewrite Hledger, Hex. reflexivity.
  - rewrite Hcalls. unfold constructor_calls. rewrite Hex. simpl.
    apply count_none. intros c [<-|[<-|Hc]]; try reflexivity.
    rewrite app_nil_r in Hc. destruct (truthy _); [|destruct Hc].
    unfold autoTrack_calls in Hc.
    destruct (has_track_clicks _), (has_track_forms _), (has_track_links _),
      (has_track_scrolls _), (has_track_sessions _); simpl in Hc;
      intuition (subst; reflexivity).
  - apply Hrun.
  - apply Hrun.
  - intros x Hx. rewrite checkConsent_cases, Hx.
    destruct (JsObject.get x groupedFeatures); eauto.
Qed.

(** C8 as stated fails: without a storage provider [checkConsent
    ('__proto__')] does not complete normally, it raises a [TypeError]. *)
Lemma checkConsent_proto_raises_without_storage :
  Options.storageProvider (sample_options (Some None)) = Some None
  /\ checkConsent "__proto__" (constructor sample_defaults (sample_options (Some None))) = None.
Proof. split; reflexivity. Qed.

Lemma no_storage_provider_is_tolerated_witness :
  (Options.storageProvider (sample_options (Some None)) = None
   \/ Options.storageProvider (sample_options (Some None)) = Some None)
  /\ storage_calls
       (run [OpAddConsent (Many ["minimal"; "ux"]); OpUpdateConsent ["feedback"];
             OpRemoveConsent (One "feedback")]
            (constructor sample_defaults (sample_options (Some None))))
     = [].
Proof.
  split; [right; reflexivity|].
  exact (proj1 (proj2 (proj2 (proj2 (proj2 (proj2
           (no_storage_provider_is_tolerated sample_defaults (sample_options (Some None))
              [OpAddConsent (Many ["minimal"; "ux"]); OpUpdateConsent ["feedback"];
               OpRemoveConsent (One "feedback")]
              (or_intror eq_refl)))))))).
Defined.

(** * Further properties of the facade *)

(** ** More on sets *)

Section MoreSetFacts.
Implicit Types (s t : JsSet.t) (x y : string) (l : list string).

Lemma add_present x s : In x s -> JsSet.add x s = s.
Proof. intros H. unfold JsSet.add. apply set_has_In in H. now rewrite H. Qed.

Lemma delete_absent x s : ~ In x s -> JsSet.delete x s = s.
Proof.
  intros H. unfold JsSet.delete. induction s as [|y s IH]; [reflexivity|].
  simpl. destruct (String.eqb_spec x y) as [->|Hne].
  - exfalso. apply H. now left.
  - simpl. f_equal. apply IH. intros Hin. apply H. now right.
Qed.

Lemma add_all_extends l : forall s,
  exists t, fold_left (fun s c => JsSet.add c s) l s = s ++ t
            /\ forall y, In y t -> In y l.
Proof.
  induction l as [|c l IH]; intros s; simpl.
  - exists []. split; [now rewrite app_nil_r|intros y []].
  - destruct (IH (JsSet.add c s)) as (t & E & Ht). rewrite E.
    unfold JsSet.add. destruct (JsSet.has c s).
    + exists t. split; [reflexivity|]. intros y Hy. right. now apply Ht.
    + exists (c :: t). split; [now rewrite <- app_assoc|].
      intros y [<-|Hy]; [now left|right; now apply Ht].
Qed.

Lemma delete_all_filter l : forall s,
  fold_left (fun s c => JsSet.delete c s) l s = filter (fun y => negb (mem y l)) s.
Proof.
  induction l as [|c l IH]; intros s; simpl.
  - induction s as [|y s IHs]; [reflexivity|]. simpl. now rewrite <- IHs.
  - rewrite IH. unfold JsSet.delete, mem. induction s as [|y s IHs]; [reflexivity|].
    simpl. rewrite (String.eqb_sym c y).
    destruct (String.eqb y c); simpl; [exact IHs|].
    destruct (existsb (String.eqb y) l); simpl; [exact IHs|now rewrite IHs].
Qed.

Lemma mem_In x l : mem x l = true <-> In x l.
Proof. exact (set_has_In x l). Qed.

Lemma filter_none {A} (p : A -> bool) (l : list A) :
  (forall a, In a l -> p a = false) -> filter p l = [].
Proof.
  induction l as [|a l IH]; intros H; [reflexivity|].
  simpl. rewrite (H a) by now left. apply IH. intros b Hb. apply H. now right.
Qed.

Lemma filter_every {A} (p : A -> bool) (l : list A) :
  (forall a, In a l -> p a = true) -> filter p l = l.
Proof.
  induction l as [|a l IH]; intros H; [reflexivity|].
  simpl. rewrite (H a) by now left. f_equal. apply IH. intros b Hb. apply H. now right.
Qed.

Lemma NoDup_add_all l : forall s,
  NoDup s -> NoDup (fold_left (fun s c => JsSet.add c s) l s).
Proof. induction l as [|c l IH]; intros s H; [exact H|]. apply IH. now apply NoDup_add. Qed.

Lemma NoDup_delete_all l : forall s,
  NoDup s -> NoDup (fold_left (fun s c => JsSet.delete c s) l s).
Proof. induction l as [|c l IH]; intros s H; [exact H|]. apply IH. now apply NoDup_delete. Qed.

Lemma add_all_NoDup l : forall s,
  NoDup (s ++ l) -> fold_left (fun s c => JsSet.add c s) l s = s ++ l.
Proof.
  induction l as [|c l IH]; intros s H; simpl; [now rewrite app_nil_r|].
  assert (Hc : ~ In c s).
  { apply NoDup_remove_2 in H. intros Hin. apply H, in_or_app. now left. }
  unfold JsSet.add at 2. destruct (JsSet.has c s) eqn:E.
  - apply set_has_In in E. contradiction.
  - replace (s ++ c :: l) with ((s ++ [c]) ++ l) in * by now rewrite <- app_assoc.
    now apply IH.
Qed.

Lemma of_array_NoDup l : NoDup l -> JsSet.of_array l = l.
Proof. intros H. unfold JsSet.of_array, JsSet.empty. now rewrite add_all_NoDup. Qed.

End MoreSetFacts.

(** ** Granting and revoking *)


(** X3. Revoking what was just granted: the ledger after [addConsent (c)]
    followed by [removeConsent (c)] is the ledger [removeConsent (c)] alone
    would leave, and it is the ledger as it was when none of the categories
    of [c] was in it. *)
Theorem removeConsent_undoes_addConsent (consent : one_or_many) (this : MetricsProvider) :
  consentGranted (removeConsent consent (addConsent consent this))
  = consentGranted (removeConsent consent this)
  /\ ((forall x, In x (as_array consent) -> ~ In x (consentGranted this)) ->
      consentGranted (removeConsent consent (addConsent consent this))
      = consentGranted this).
Proof.
  unfold consentGranted, JsSet.to_array.
  rewrite !removeConsent_granted, addConsent_granted, !delete_all_filter.
  destruct (add_all_extends (as_array consent) (_consentGranted this)) as (t & -> & Ht).
  rewrite filter_app.
  rewrite (filter_none _ t), app_nil_r.
  - split; [reflexivity|]. intros Hnew. apply filter_every.
    intros a Ha. apply negb_true_iff, not_true_is_false.
    intros Hm. apply mem_In in Hm. exact (Hnew a Hm Ha).
  - intros a Ha. apply negb_false_iff, mem_In. now apply Ht.
Qed.

(** ** The ledger and its persisted copy *)

Section Persistence.
Implicit Types (this : MetricsProvider) (c : one_or_many) (o : op).

Lemma addConsent_restorable c this :
  initDone this = true -> restorable this -> restorable (addConsent c this).
Proof.
  unfold restorable. intros Hi [Hnd Hsp].
  assert (Hnd' : NoDup (_consentGranted (addConsent c this))).
  { rewrite addConsent_granted. now apply NoDup_add_all. }
  split; [exact Hnd'|]. intros sp E.
  pose proof (addConsent_storage c this) as Es. rewrite Hi in Es.
  destruct (storageProvider this).
  - injection Es as Es _. rewrite E in Es. injection Es as ->.
    simpl. now apply of_array_NoDup.
  - injection Es as Es _. congruence.
Qed.

Lemma removeConsent_restorable c this :
  initDone this = true -> restorable this -> restorable (removeConsent c this).
Proof.
  unfold restorable. intros Hi [Hnd Hsp].
  assert (Hnd' : NoDup (_consentGranted (removeConsent c this))).
  { rewrite removeConsent_granted. now apply NoDup_delete_all. }
  split; [exact Hnd'|]. intros sp E.
  pose proof (removeConsent_storage c this) as Es. rewrite Hi in Es.
  destruct (storageProvider this).
  - injection Es as Es _. rewrite E in Es. injection Es as ->.
    simpl. now apply of_array_NoDup.
  - injection Es as Es _. congruence.
Qed.

Lemma perform_restorable o this :
  initDone this = true /\ restorable this ->
  initDone (perform this o) = true /\ restorable (perform this o).
Proof.
  intros [Hi H]. split; [now rewrite perform_initDone|].
  pose proof (perform_other this o) as Hother.
  destruct o;
    try (destruct Hother as (E1 & E2 & _); unfold restorable in *;
         destruct H as [H1 H2]; split;
         [exact (eq_ind_r (fun g => NoDup g) H1 E1)
         |intros sp Hsp; exact (eq_trans (H2 sp (eq_trans (eq_sym E2) Hsp)) (eq_sym E1))]);
    cbn [perform].
  - now apply addConsent_restorable.
  - now apply removeConsent_restorable.
  - rewrite updateConsent_reconcile.
    apply (reconcile_inv (fun s => initDone s = true /\ restorable s)); [| |tauto].
    + intros c s [Hsi Hs]. split; [now rewrite addConsent_initDone|].
      now apply addConsent_restorable.
    + intros c s [Hsi Hs]. split; [now rewrite removeConsent_initDone|].
      now apply removeConsent_restorable.
Qed.

Lemma constructor_restorable defaults config :
  initDone (constructor defaults config) = true
  /\ restorable (constructor defaults config).
Proof.
  destruct (constructor_state defaults config) as [Hrest _].
  unfold rest_of in Hrest. injection Hrest as _ Hledger _ Hstore Hdone _.
  split; [exact Hdone|]. unfold restorable. rewrite Hledger, Hstore. split.
  - unfold JsSet.of_array. apply NoDup_add_all. constructor.
  - intros sp E. unfold existing_consent. now rewrite E.
Qed.

Lemma run_restorable defaults config ops :
  initDone (run ops (constructor defaults config)) = true
  /\ restorable (run ops (constructor defaults config)).
Proof.
  apply (run_inv (fun s => initDone s = true /\ restorable s)).
  - intros o s. apply perform_restorable.
  - apply constructor_restorable.
Qed.

End Persistence.

(** X2. Whatever the persisted list and the arguments of the operations,
    [consentGranted] never lists a category twice. *)
Theorem consentGranted_has_no_repetition
    (defaults : Defaults.t) (config : Options.t) (ops : list op) :
  NoDup (consentGranted (run ops (constructor defaults config))).
Proof. apply run_restorable. Qed.

(** X6. Restart: a facade constructed on the storage provider that an earlier
    facade leaves behind, after any operations, starts with the
    [consentGranted] the earlier one ended with. *)
Theorem constructor_restores_persisted_ledger
    (defaults defaults' : Defaults.t) (config config' : Options.t) (ops : list op)
    (sp : StorageProvider) :
  storageProvider (run ops (constructor defaults config)) = Some sp ->
  Options.storageProvider config' = Some (Some sp) ->
  consentGranted (constructor defaults' config')
  = consentGranted (run ops (constructor defaults config)).
Proof.
  intros Hleft Hgiven. unfold consentGranted, JsSet.to_array.
  rewrite constructor_granted. unfold existing_consent. rewrite Hgiven. simpl.
  destruct (run_restorable defaults config ops) as [_ [_ H]]. now apply H.
Qed.

Lemma constructor_restores_persisted_ledger_witness :
  storageProvider
    (run [OpUpdateConsent ["ux"; "minimal"]; OpAddConsent (Many ["all"; "ux"])]
         (constructor sample_defaults with_performance_stored))
  = Some {| stored := ["minimal"; "ux"; "all"] |}
  /\ consentGranted
       (constructor sample_defaults
          (sample_options (Some (Some {| stored := ["minimal"; "ux"; "all"] |}))))
     = consentGranted
         (run [OpUpdateConsent ["ux"; "minimal"]; OpAddConsent (Many ["all"; "ux"])]
              (constructor sample_defaults with_performance_stored)).
Proof.
  assert (H : storageProvider
                (run [OpUpdateConsent ["ux"; "minimal"]; OpAddConsent (Many ["all"; "ux"])]
                     (constructor sample_defaults with_performance_stored))
              = Some {| stored := ["minimal"; "ux"; "all"] |}).
  { vm_compute. reflexivity. }
  split; [exact H|].
  exact (constructor_restores_persisted_ledger sample_defaults sample_defaults
           with_performance_stored
           (sample_options (Some (Some {| stored := ["minimal"; "ux"; "all"] |})))
           [OpUpdateConsent ["ux"; "minimal"]; OpAddConsent (Many ["all"; "ux"])]
           {| stored := ["minimal"; "ux"; "all"] |} H eq_refl).
Defined.

(** ** Reconciling twice, and what reconciling costs *)

Section Reconciling.
Implicit Types (this : MetricsProvider) (c : one_or_many).

Lemma reconcile_settled consent names : forall this,
  (forall k, In k names -> (In k consent <-> In k (_consentGranted this))) ->
  _consentGranted (reconcile consent names this) = _consentGranted this.
Proof.
  induction names as [|k names IH]; intros this H; [reflexivity|].
  unfold reconcile in *. simpl.
  assert (Hk := H k (or_introl eq_refl)).
  destruct (JsSet.has k (JsSet.of_array consent)) eqn:E.
  - apply has_of_array in E.
    assert (Hsame : _consentGranted (addConsent (One k) this) = _consentGranted this).
    { rewrite addConsent_granted. simpl. apply add_present. tauto. }
    rewrite <- Hsame. apply IH. intros k' Hk'. rewrite Hsame. apply H. now right.
  - assert (Hout : ~ In k consent) by (rewrite <- has_of_array; congruence).
    assert (Hsame : _consentGranted (removeConsent (One k) this) = _consentGranted this).
    { rewrite removeConsent_granted. simpl. apply delete_absent. tauto. }
    rewrite <- Hsame. apply IH. intros k' Hk'. rewrite Hsame. apply H. now right.
Qed.

Lemma addConsent_mirrored c this : storing this -> mirrored (addConsent c this).
Proof.
  unfold storing, has_store, mirrored. intros [Hi Hs].
  pose proof (addConsent_storage c this) as E. rewrite Hi in E.
  destruct (storageProvider this); [|discriminate]. now injection E.
Qed.

Lemma removeConsent_mirrored c this : storing this -> mirrored (removeConsent c this).
Proof.
  unfold storing, has_store, mirrored. intros [Hi Hs].
  pose proof (removeConsent_storage c this) as E. rewrite Hi in E.
  destruct (storageProvider this); [|discriminate]. now injection E.
Qed.

Lemma addConsent_writes_once c this :
  storing this ->
  count is_setStore (storage_calls (addConsent c this))
  = S (count is_setStore (storage_calls this)).
Proof.
  unfold storing, has_store. intros [Hi Hs].
  pose proof (addConsent_storage c this) as E. rewrite Hi in E.
  destruct (storageProvider this); [|discriminate]. injection E as _ ->.
  rewrite count_app. unfold count at 2. simpl. lia.
Qed.

Lemma removeConsent_writes_once c this :
  storing this ->
  count is_setStore (storage_calls (removeConsent c this))
  = S (count is_setStore (storage_calls this)).
Proof.
  unfold storing, has_store. intros [Hi Hs].
  pose proof (removeConsent_storage c this) as E. rewrite Hi in E.
  destruct (storageProvider this); [|discriminate]. injection E as _ ->.
  rewrite count_app. unfold count at 2. simpl. lia.
Qed.

Lemma reconcile_writes consent names : forall this,
  storing this ->
  count is_setStore (storage_calls (reconcile consent names this))
  = count is_setStore (storage_calls this) + List.length names.
Proof.
  induction names as [|k names IH]; intros this H; simpl; [lia|].
  unfold reconcile in *. simpl.
  destruct (JsSet.has k (JsSet.of_array consent)).
  - rewrite IH by now apply addConsent_storing.
    rewrite addConsent_writes_once by assumption. lia.
  - rewrite IH by now apply removeConsent_storing.
    rewrite removeConsent_writes_once by assumption. lia.
Qed.

Lemma reconcile_mirrored consent k names this :
  storing this -> mirrored (reconcile consent (k :: names) this).
Proof.
  intros H. unfold reconcile. simpl. fold (reconcile consent names).
  apply (reconcile_inv (fun s => storing s /\ mirrored s)).
  - intros c s [Hs _]. split; [now apply addConsent_storing|now apply addConsent_mirrored].
  - intros c s [Hs _]. split; [now apply removeConsent_storing|now apply removeConsent_mirrored].
  - destruct (JsSet.has k (JsSet.of_array consent)).
    + split; [now apply addConsent_storing|now apply addConsent_mirrored].
    + split; [now apply removeConsent_storing|now apply removeConsent_mirrored].
Qed.

End Reconciling.

(** X4. [updateConsent] is idempotent on the ledger: in any state, a second
    call with the same input leaves [consentGranted] as the first call left
    it, order included. *)
Theorem updateConsent_twice_same_ledger (consent : list string) (this : MetricsProvider) :
  consentGranted (updateConsent consent (updateConsent consent this))
  = consentGranted (updateConsent consent this).
Proof.
  unfold consentGranted, JsSet.to_array.
  rewrite (updateConsent_reconcile consent (updateConsent consent this)).
  apply reconcile_settled. intros k Hk.
  rewrite updateConsent_reconcile, reconcile_granted. tauto.
Qed.

(** X5. With a storage provider present, [updateConsent], called at any point
    after construction, writes to storage once for every key of the catalog
    (six times), changed or not, and leaves storage holding the final
    ledger. *)
Theorem updateConsent_writes_once_per_key
    (defaults : Defaults.t) (config : Options.t) (sp : StorageProvider)
    (ops : list op) (consent : list string) :
  Options.storageProvider config = Some (Some sp) ->
  let this := run ops (constructor defaults config) in
  count is_setStore (storage_calls (updateConsent consent this))
  = count is_setStore (storage_calls this) + 6
  /\ storageProvider (updateConsent consent this)
     = Some {| stored := consentGranted (updateConsent consent this) |}.
Proof.
  intros Hsp this.
  assert (Hthis : storing this).
  { apply (run_inv storing perform_storing).
    destruct (constructor_state defaults config) as [Hrest _].
    unfold rest_of in Hrest. rewrite Hsp in Hrest. simpl in Hrest.
    injection Hrest as _ _ _ Hstore Hdone _.
    unfold storing, has_store. now rewrite Hdone, Hstore. }
  rewrite updateConsent_reconcile. split.
  - now rewrite reconcile_writes.
  - change (JsObject.keys groupedFeatures)
      with ("minimal" :: ["performance"; "ux"; "feedback"; "location"; "all"]).
    now apply reconcile_mirrored.
Qed.

Lemma updateConsent_writes_once_per_key_witness :
  Options.storageProvider with_performance_stored = Some (Some {| stored := ["performance"] |})
  /\ count is_setStore
       (storage_calls
          (updateConsent ["performance"]
             (run [OpTrackView None None None]
                  (constructor sample_defaults with_performance_stored))))
     = count is_setStore
         (storage_calls
            (run [OpTrackView None None None]
                 (constructor sample_defaults with_performance_stored)))
       + 6.
Proof.
  split; [reflexivity|].
  exact (proj1 (updateConsent_writes_once_per_key sample_defaults with_performance_stored
                  {| stored := ["performance"] |} [OpTrackView None None None]
                  ["performance"] eq_refl)).
Defined.

(** ** What the service and the storage provider are asked, over a whole run *)

Section Logs.
Implicit Types (this : MetricsProvider) (o : op).

Lemma emitted_session_counts this o :
  count is_begin_session (emitted this o) + b2n (sessionStarted this)
  = count is_end_session (emitted this o) + b2n (sessionStarted (perform this o)).
Proof.
  assert (Hquiet : forall calls,
             (forall c, In c calls -> is_session_call c = false) ->
             count is_begin_session calls = 0 /\ count is_end_session calls = 0).
  { intros calls H. split; apply count_none; intros c Hc;
      apply H, no_session_split in Hc; tauto. }
  rewrite perform_sessionStarted.
  destruct o; cbn [emitted]; try reflexivity.
  - destruct (Hquiet _ (reconcile_call_no_session consent (JsObject.keys groupedFeatures)))
      as [-> ->]. reflexivity.
  - destruct (Hquiet _ (autoTrack_calls_no_session (metricsService this))) as [-> ->].
    reflexivity.
  - now destruct (sessionStarted this).
  - now destruct (sessionStarted this).
Qed.

Lemma emitted_fixed_arguments this o : forallb fixed_arguments (emitted this o) = true.
Proof.
  destruct o; cbn [emitted]; try reflexivity.
  - apply forallb_forall. intros c Hc. apply in_map_iff in Hc as (k & <- & _).
    unfold reconcile_call. now destruct (JsSet.has _ _).
  - unfold autoTrack_calls.
    now destruct (has_track_clicks _), (has_track_forms _), (has_track_links _),
      (has_track_scrolls _), (has_track_sessions _).
  - now destruct (sessionStarted this).
  - now destruct (sessionStarted this).
Qed.

Lemma constructor_calls_fixed_arguments defaults config :
  forallb fixed_arguments (constructor_calls defaults config) = true.
Proof.
  unfold constructor_calls. rewrite !forallb_app. simpl.
  destruct (truthy _), (Nat.ltb _ _); simpl; rewrite ?andb_true_r; try reflexivity;
    unfold autoTrack_calls;
    now destruct (has_track_clicks _), (has_track_forms _), (has_track_links _),
      (has_track_scrolls _), (has_track_sessions _).
Qed.

Lemma read_then_writes_snoc calls l :
  read_then_writes calls = true -> read_then_writes (calls ++ [setStore l]) = true.
Proof.
  destruct calls as [|[|l'] calls]; simpl; try discriminate.
  intros H. now rewrite forallb_app, H.
Qed.

Lemma addConsent_read_then_writes c this :
  read_then_writes (storage_calls this) = true ->
  read_then_writes (storage_calls (addConsent c this)) = true.
Proof.
  intros H. pose proof (addConsent_storage c this) as E.
  destruct (storageProvider this); [destruct (initDone this)|];
    injection E as _ ->; auto using read_then_writes_snoc.
Qed.

Lemma removeConsent_read_then_writes c this :
  read_then_writes (storage_calls this) = true ->
  read_then_writes (storage_calls (removeConsent c this)) = true.
Proof.
  intros H. pose proof (removeConsent_storage c this) as E.
  destruct (storageProvider this); [destruct (initDone this)|];
    injection E as _ ->; auto using read_then_writes_snoc.
Qed.

Lemma perform_read_then_writes o this :
  read_then_writes (storage_calls this) = true ->
  read_then_writes (storage_calls (perform this o)) = true.
Proof.
  intros H. pose proof (perform_other this o) as Hother.
  destruct o;
    try (destruct Hother as (_ & _ & E);
         exact (eq_ind_r (fun l => read_then_writes l = true) H E));
    cbn [perform].
  - now apply addConsent_read_then_writes.
  - now apply removeConsent_read_then_writes.
  - rewrite updateConsent_reconcile.
    apply (reconcile_inv (fun s => read_then_writes (storage_calls s) = true));
      auto using addConsent_read_then_writes, removeConsent_read_then_writes.
Qed.

End Logs.

(** X7. After construction and any public operations, the service has been
    sent as many [begin_session] calls as [end_session] calls, plus one when
    the facade's session flag is on: the flag tells whether a session is open
    on the service. *)
Theorem session_flag_counts_open_session
    (defaults : Defaults.t) (config : Options.t) (ops : list op) :
  count is_begin_session (service_calls (run ops (constructor defaults config)))
  = count is_end_session (service_calls (run ops (constructor defaults config)))
    + b2n (sessionStarted (run ops (constructor defaults config))).
Proof.
  apply (run_inv (fun s => count is_begin_session (service_calls s)
                           = count is_end_session (service_calls s)
                             + b2n (sessionStarted s))).
  - intros o s H. rewrite perform_service_calls, !count_app.
    pose proof (emitted_session_counts s o). lia.
  - destruct (constructor_no_session_calls defaults config) as [-> ->].
    now rewrite constructor_inactive.
Qed.

(** X8. After construction and any public operations, every [remove_consent]
    call in the service log carries [true] as second argument and every
    [end_session] call carries no duration. *)
Theorem service_calls_have_fixed_arguments
    (defaults : Defaults.t) (config : Options.t) (ops : list op) :
  (forall consent enforce,
     In (remove_consent consent enforce)
        (service_calls (run ops (constructor defaults config))) ->
     enforce = true)
  /\ (forall sec force,
        In (end_session sec force)
           (service_calls (run ops (constructor defaults config))) ->
        sec = None).
Proof.
  assert (H : forallb fixed_arguments
                (service_calls (run ops (constructor defaults config))) = true).
  { apply (run_inv (fun s => forallb fixed_arguments (service_calls s) = true)).
    - intros o s Hs. now rewrite perform_service_calls, forallb_app, Hs, emitted_fixed_arguments.
    - destruct (constructor_state defaults config) as [_ ->].
      apply constructor_calls_fixed_arguments. }
  rewrite forallb_forall in H. split.
  - intros consent enforce Hin. exact (H _ Hin).
  - intros sec force Hin. specialize (H _ Hin). simpl in H.
    destruct sec; [discriminate|reflexivity].
Qed.

(** X9. With a storage provider present, the facade reads storage exactly
    once, first thing, at construction: after any public operations the
    storage log is that one [getStore] followed by [setStore] calls only. *)
Theorem storage_is_read_once
    (defaults : Defaults.t) (config : Options.t) (sp : StorageProvider) (ops : list op) :
  Options.storageProvider config = Some (Some sp) ->
  exists writes,
    storage_calls (run ops (constructor defaults config)) = getStore :: writes
    /\ forallb is_setStore writes = true.
Proof.
  intros Hsp.
  assert (H : read_then_writes (storage_calls (run ops (constructor defaults config))) = true).
  { apply (run_inv (fun s => read_then_writes (storage_calls s) = true)).
    - intros o s. apply perform_read_then_writes.
    - destruct (constructor_state defaults config) as [Hrest _].
      unfold rest_of in Hrest. rewrite Hsp in Hrest. simpl in Hrest.
      injection Hrest as _ _ _ _ _ ->. reflexivity. }
  destruct (storage_calls _) as [|[|l] writes]; simpl in H; try discriminate.
  exists writes. split; [reflexivity|exact H].
Qed.

Lemma storage_is_read_once_witness :
  Options.storageProvider with_performance_stored = Some (Some {| stored := ["performance"] |})
  /\ exists writes,
       storage_calls
         (run [OpAddConsent (One "ux"); OpUpdateConsent []]
              (constructor sample_defaults with_performance_stored))
       = getStore :: writes
       /\ forallb is_setStore writes = true.
Proof.
  split; [reflexivity|].
  exact (storage_is_read_once sample_defaults with_performance_stored
           {| stored := ["performance"] |}
           [OpAddConsent (One "ux"); OpUpdateConsent []] eq_refl).
Defined.

(** ** Construction and automatic tracking *)


(** X11. With [autoTrack] given to the constructor as [false], or written
    as [undefined], it makes no tracking call, whatever the default says: it
    calls [init] and [group_features], and then [add_consent] on the persisted
    list when that is not empty, and nothing else. *)
Theorem constructor_autoTrack_off
    (defaults : Defaults.t) (config : Options.t) :
  Options.autoTrack config = Some (Some false) \/ Options.autoTrack config = Some None ->
  service_calls (constructor defaults config)
  = [init (serviceConfig_of defaults config); group_features groupedFeatures]
    ++ (if Nat.ltb 0 (List.length (existing_consent config))
        then [add_consent (existing_consent config)] else []).
Proof.
  intros Hoff. destruct (constructor_state defaults config) as [_ ->].
  unfold constructor_calls, serviceConfig_of. simpl.
  now destruct Hoff as [-> | ->].
Qed.

Lemma constructor_autoTrack_off_witness :
  service_calls
    (constructor sample_defaults
       {| Options.appKey := "app-key";
          Options.autoTrack := Some None;
          Options.interval := Some None;
          Options.max_events := None;
          Options.metricsService := sample_sdk;
          Options.queue_size := None;
          Options.session_update := None;
          Options.url := None;
          Options.storageProvider := None |})
  = [init {| app_key := "app-key";
             cfg_autoTrack := Some None;
             cfg_interval := Some None;
             cfg_max_events := Some (Some 10);
             cfg_queue_size := Some (Some 1000);
             cfg_session_update := Some (Some 60);
             cfg_url := Some (Some "https://countly.example") |};
     group_features groupedFeatures].
Proof.
  exact (constructor_autoTrack_off sample_defaults
           {| Options.appKey := "app-key";
              Options.autoTrack := Some None;
              Options.interval := Some None;
              Options.max_events := None;
              Options.metricsService := sample_sdk;
              Options.queue_size := None;
              Options.session_update := None;
              Options.url := None;
              Options.storageProvider := None |} (or_intror eq_refl)).
Defined.

(** X12. [setupAutoTrack] touches nothing but the service.  It calls, in
    this order, [track_clicks], [track_forms], [track_links], [track_scrolls]
    and [track_sessions], each only when the service has it, and then always
    [track_errors], [track_pageview] and [track_view] without arguments, and
    makes no other call: eight calls on a service with all the web-only
    trackers, the last three alone on a service with none. *)
Theorem setupAutoTrack_calls (this : MetricsProvider) :
  rest_of (setupAutoTrack this) = rest_of this
  /\ service_calls (setupAutoTrack this)
     = service_calls this
       ++ (if has_track_clicks (metricsService this) then [track_clicks] else [])
       ++ (if has_track_forms (metricsService this) then [track_forms] else [])
       ++ (if has_track_links (metricsService this) then [track_links] else [])
       ++ (if has_track_scrolls (metricsService this) then [track_scrolls] else [])
       ++ (if has_track_sessions (metricsService this) then [track_sessions] else [])
       ++ [track_errors; track_pageview; track_view None None None]
  /\ (has_track_clicks (metricsService this) = true ->
      has_track_forms (metricsService this) = true ->
      has_track_links (metricsService this) = true ->
      has_track_scrolls (metricsService this) = true ->
      has_track_sessions (metricsService this) = true ->
      service_calls (setupAutoTrack this)
      = service_calls this
        ++ [track_clicks; track_forms; track_links; track_scrolls; track_sessions;
            track_errors; track_pageview; track_view None None None])
  /\ (has_track_clicks (metricsService this) = false ->
      has_track_forms (metricsService this) = false ->
      has_track_links (metricsService this) = false ->
      has_track_scrolls (metricsService this) = false ->
      has_track_sessions (metricsService this) = false ->
      service_calls (setupAutoTrack this)
      = service_calls this ++ [track_errors; track_pageview; track_view None None None]).
Proof.
  split; [apply setupAutoTrack_rest|].
  rewrite setupAutoTrack_service_calls. unfold autoTrack_calls.
  split; [reflexivity|]. split; intros -> -> -> -> ->; reflexivity.
Qed.

(** X14. Tracking does not touch consent, session or storage: a run of
    [trackView], [trackEvent] and [trackError] calls leaves every field of the
    facade as it was and sends the service one call per operation. *)
Theorem tracking_leaves_state_alone (ops : list op) (this : MetricsProvider) :
  forallb is_tracking_op ops = true ->
  rest_of (run ops this) = rest_of this
  /\ List.length (service_calls (run ops this))
     = List.length (service_calls this) + List.length ops.
Proof.
  revert this. induction ops as [|o ops IH]; intros this H.
  - simpl. split; [reflexivity|lia].
  - simpl in H. apply andb_true_iff in H as [Ho H].
    unfold run in *. simpl. destruct (IH (perform this o) H) as [E1 E2].
    rewrite E1, E2. destruct o; try discriminate Ho; cbn [perform];
      unfold trackView, trackEvent, trackError;
      rewrite call_service_rest, call_service_service_calls, length_app; simpl;
      (split; [reflexivity|lia]).
Qed.

Lemma tracking_leaves_state_alone_witness :
  forallb is_tracking_op
    [OpTrackView (Some "/home") None None; OpTrackError "boom" None None] = true
  /\ rest_of (run [OpTrackView (Some "/home") None None; OpTrackError "boom" None None]
                  (constructor sample_defaults with_performance_stored))
     = rest_of (constructor sample_defaults with_performance_stored).
Proof.
  split; [reflexivity|].
  exact (proj1 (tracking_leaves_state_alone
                  [OpTrackView (Some "/home") None None; OpTrackError "boom" None None]
                  (constructor sample_defaults with_performance_stored) eq_refl)).
Defined.

(** ** The catalog and the [all] category *)

Section SetPresent.
Context {V : Type}.
Implicit Types (o : JsObject.t V) (k : string) (v : V).

Lemma set_present_keys k v o :
  In k (JsObject.keys o) -> JsObject.keys (JsObject.set k v o) = JsObject.keys o.
Proof.
  induction o as [|[k' v'] o IH]; simpl; [tauto|]. intros H.
  destruct (String.eqb_spec k k') as [->|Hne]; [reflexivity|].
  simpl. f_equal. apply IH. destruct H as [H|H]; [congruence|exact H].
Qed.

Lemma get_set_same k v o : JsObject.get k (JsObject.set k v o) = Some v.
Proof.
  induction o as [|[k' v'] o IH]; simpl.
  - now rewrite String.eqb_refl.
  - destruct (String.eqb k k') eqn:E; simpl; [now rewrite String.eqb_refl|].
    now rewrite E.
Qed.

Lemma get_set_other k k' v o :
  k' <> k -> JsObject.get k' (JsObject.set k v o) = JsObject.get k' o.
Proof.
  intros Hne. induction o as [|[k0 v0] o IH]; simpl.
  - now rewrite (proj2 (String.eqb_neq k' k) Hne).
  - destruct (String.eqb_spec k k0) as [->|Hk]; simpl.
    + now rewrite (proj2 (String.eqb_neq k' k0) Hne).
    + now rewrite IH.
Qed.

Lemma get_In_values k v o : JsObject.get k o = Some v -> In v (JsObject.values o).
Proof.
  induction o as [|[k' v'] o IH]; simpl; [discriminate|].
  destruct (String.eqb k k'); [intros [= ->]; now left|intros H; right; now apply IH].
Qed.

End SetPresent.

(** X13. An input mapping that has an [all] key already: [mapAllEvents]
    keeps the keys and their order, overwrites the value of [all] in place
    with the concatenation of every value of the input, the old [all] list
    included, and leaves the other values alone. *)
Theorem mapAllEvents_overwrites_all (eventMap : JsObject.t (list metricFeatures)) :
  JsObject.wf eventMap ->
  In "all" (JsObject.keys eventMap) ->
  JsObject.keys (mapAllEvents eventMap) = JsObject.keys eventMap
  /\ JsObject.get "all" (mapAllEvents eventMap)
     = Some (List.concat (JsObject.values eventMap))
  /\ (forall k, k <> "all" ->
        JsObject.get k (mapAllEvents eventMap) = JsObject.get k eventMap)
  /\ (forall old flag, JsObject.get "all" eventMap = Some old -> In flag old ->
        In flag (List.concat (JsObject.values eventMap))).
Proof.
  intros Hwf Hall. unfold mapAllEvents, flat. rewrite (spread_wf _ Hwf).
  split; [now apply set_present_keys|].
  split; [apply get_set_same|].
  split; [intros k Hk; now apply get_set_other|].
  intros old flag Hold Hflag. apply in_concat. exists old.
  split; [now apply (get_In_values "all")|exact Hflag].
Qed.

Lemma mapAllEvents_overwrites_all_witness :
  JsObject.wf [("all", ["views"]); ("minimal", ["sessions"])]
  /\ In "all" (JsObject.keys [("all", ["views"]); ("minimal", ["sessions"])])
  /\ JsObject.get "all" (mapAllEvents [("all", ["views"]); ("minimal", ["sessions"])])
     = Some ["views"; "sessions"].
Proof.
  assert (Hwf : JsObject.wf [("all", ["views"]); ("minimal", ["sessions"])]).
  { unfold JsObject.wf. simpl. repeat constructor; simpl; intuition discriminate. }
  assert (Hall : In "all" (JsObject.keys [("all", ["views"]); ("minimal", ["sessions"])])).
  { simpl. now left. }
  split; [exact Hwf|]. split; [exact Hall|].
  exact (proj1 (proj2 (mapAllEvents_overwrites_all
                         [("all", ["views"]); ("minimal", ["sessions"])] Hwf Hall))).
Defined.

(** X15. [checkConsent ('all')] is true exactly when [checkConsent] is true
    for each of the five categories [minimal], [performance], [ux], [feedback]
    and [location]. *)
Theorem checkConsent_all_iff_every_category (this : MetricsProvider) :
  checkConsent "all" this = Some true
  <-> forall category, In category (JsObject.keys eventMap_literal) ->
                       checkConsent category this = Some true.
Proof.
  set (ask := check_consent (metricsService this) (service_calls this)).
  assert (Eall : checkConsent "all" this
                 = Some (forallb ask (["sessions"; "views"; "events"] ++ ["crashes"; "apm"]
                                      ++ ["scrolls"; "clicks"; "forms"]
                                      ++ ["star-rating"; "feedback"] ++ ["location"])))
    by reflexivity.
  assert (E1 : checkConsent "minimal" this = Some (forallb ask ["sessions"; "views"; "events"]))
    by reflexivity.
  assert (E2 : checkConsent "performance" this = Some (forallb ask ["crashes"; "apm"]))
    by reflexivity.
  assert (E3 : checkConsent "ux" this = Some (forallb ask ["scrolls"; "clicks"; "forms"]))
    by reflexivity.
  assert (E4 : checkConsent "feedback" this = Some (forallb ask ["star-rating"; "feedback"]))
    by reflexivity.
  assert (E5 : checkConsent "location" this = Some (forallb ask ["location"]))
    by reflexivity.
  rewrite Eall, !forallb_app.
  set (b1 := forallb ask ["sessions"; "views"; "events"]) in *.
  set (b2 := forallb ask ["crashes"; "apm"]) in *.
  set (b3 := forallb ask ["scrolls"; "clicks"; "forms"]) in *.
  set (b4 := forallb ask ["star-rating"; "feedback"]) in *.
  set (b5 := forallb ask ["location"]) in *.
  clearbody b1 b2 b3 b4 b5. split.
  - intros [= H]. intros category Hin. simpl in Hin.
    destruct b1, b2, b3, b4, b5; try discriminate H.
    destruct Hin as [<-|[<-|[<-|[<-|[<-|[]]]]]]; assumption.
  - intros H.
    assert (H1 := H "minimal"). assert (H2 := H "performance"). assert (H3 := H "ux").
    assert (H4 := H "feedback"). assert (H5 := H "location").
    rewrite E1 in H1. rewrite E2 in H2. rewrite E3 in H3. rewrite E4 in H4. rewrite E5 in H5.
    assert (Some b1 = Some true) as [= ->] by (apply H1; simpl; tauto).
    assert (Some b2 = Some true) as [= ->] by (apply H2; simpl; tauto).
    assert (Some b3 = Some true) as [= ->] by (apply H3; simpl; tauto).
    assert (Some b4 = Some true) as [= ->] by (apply H4; simpl; tauto).
    assert (Some b5 = Some true) as [= ->] by (apply H5; simpl; tauto).
    reflexivity.
Qed.

(** ** The function interface: what is stored and what the service is told *)

Section FunctionFacts.
Variable JSON_stringify : list string -> string.
Implicit Types (w : Functions.World) (o : Functions.op) (key : string).

Lemma InitCountlyMetrics_localStorage appKey url w :
  Functions.localStorage (Functions.InitCountlyMetrics appKey url w)
  = Functions.localStorage w.
Proof. reflexivity. Qed.

Lemma InitCountlyMetrics_consents appKey url w :
  Functions.consents_added (Functions.countly (Functions.InitCountlyMetrics appKey url w))
  = Functions.consents_added (Functions.countly w).
Proof.
  unfold Functions.InitCountlyMetrics, Functions.call, Functions.consents_added. simpl.
  rewrite <- !app_assoc, flat_map_app. simpl. now rewrite app_nil_r.
Qed.

Lemma updateMetricsConsent_getItem consent key w :
  Functions.getItem key (Functions.updateMetricsConsent JSON_stringify consent w)
  = if String.eqb key "metrics_consent"
    then Some (JSON_stringify (as_array consent))
    else Functions.getItem key w.
Proof.
  unfold Functions.getItem, Functions.updateMetricsConsent, Functions.setItem.
  destruct (String.eqb_spec key "metrics_consent") as [->|Hne];
    destruct consent; simpl;
    first [apply get_set_same | now apply get_set_other].
Qed.

Lemma updateMetricsConsent_consents consent w :
  Functions.consents_added
    (Functions.countly (Functions.updateMetricsConsent JSON_stringify consent w))
  = Functions.consents_added (Functions.countly w) ++ [consent].
Proof.
  unfold Functions.updateMetricsConsent, Functions.consents_added.
  destruct consent; simpl; now rewrite flat_map_app.
Qed.

Lemma perform_getItem o key w :
  Functions.getItem key (Functions.perform JSON_stringify w o)
  = match Functions.consent_of o with
    | Some consent =>
        if String.eqb key "metrics_consent"
        then Some (JSON_stringify (as_array consent))
        else Functions.getItem key w
    | None => Functions.getItem key w
    end.
Proof.
  destruct o; cbn [Functions.perform Functions.consent_of];
    try (unfold Functions.acceptMetricsConsent, Functions.declineMetricsConsent;
         apply updateMetricsConsent_getItem).
  unfold Functions.getItem. now rewrite InitCountlyMetrics_localStorage.
Qed.

Lemma perform_consents o w :
  Functions.consents_added (Functions.countly (Functions.perform JSON_stringify w o))
  = Functions.consents_added (Functions.countly w)
    ++ match Functions.consent_of o with Some consent => [consent] | None => [] end.
Proof.
  destruct o; cbn [Functions.perform Functions.consent_of];
    try (unfold Functions.acceptMetricsConsent, Functions.declineMetricsConsent;
         apply updateMetricsConsent_consents).
  rewrite InitCountlyMetrics_consents. now rewrite app_nil_r.
Qed.

Lemma functions_run_snoc ops o w :
  Functions.run JSON_stringify (ops ++ [o]) w
  = Functions.perform JSON_stringify (Functions.run JSON_stringify ops w) o.
Proof. unfold Functions.run. now rewrite fold_left_app. Qed.

End FunctionFacts.

(** X16. The stored consent is the last one given: after any sequence of
    [InitCountlyMetrics], [updateMetricsConsent], [acceptMetricsConsent] and
    [declineMetricsConsent] calls, [getMetricsConsent] returns the JSON text of
    the array form of the consent of the last consent call (a single category
    is stored as a one-element array), and what was stored before, [null] when
    nothing was, if there was no consent call; the other items of
    [localStorage] are never changed. *)
Theorem getMetricsConsent_returns_last_consent
    (JSON_stringify : list string -> string) (ops : list Functions.op) (w : Functions.World) :
  Functions.getMetricsConsent (Functions.run JSON_stringify ops w)
  = match Functions.last_consent ops with
    | Some consent => Some (JSON_stringify (as_array consent))
    | None => Functions.getMetricsConsent w
    end
  /\ (forall key, key <> "metrics_consent" ->
        Functions.getItem key (Functions.run JSON_stringify ops w) = Functions.getItem key w).
Proof.
  induction ops as [|o ops [IH1 IH2]] using rev_ind; [split; reflexivity|].
  rewrite functions_run_snoc. unfold Functions.getMetricsConsent in *. split.
  - rewrite perform_getItem. unfold Functions.last_consent in *. rewrite fold_left_app.
    simpl. destruct (Functions.consent_of o); [reflexivity|exact IH1].
  - intros key Hkey. rewrite perform_getItem.
    rewrite (proj2 (String.eqb_neq key "metrics_consent") Hkey).
    destruct (Functions.consent_of o); now apply IH2.
Qed.

(** X17. Consent is only ever added: over any sequence of calls of the
    exported functions, the [add_consent] calls made on [Countly] are the
    consents of the consent calls, one each and in order, [['all']] for
    [acceptMetricsConsent] and [['necessary']] for [declineMetricsConsent];
    declining after accepting adds [necessary] and takes nothing back. *)
Theorem consent_functions_only_add
    (JSON_stringify : list string -> string) (ops : list Functions.op) (w : Functions.World) :
  Functions.consents_added (Functions.countly (Functions.run JSON_stringify ops w))
  = Functions.consents_added (Functions.countly w) ++ Functions.consents_given ops
  /\ Functions.consents_added
       (Functions.countly
          (Functions.declineMetricsConsent JSON_stringify
             (Functions.acceptMetricsConsent JSON_stringify w)))
     = Functions.consents_added (Functions.countly w) ++ [Many ["all"]; Many ["necessary"]].
Proof.
  assert (H : forall l,
             Functions.consents_added (Functions.countly (Functions.run JSON_stringify l w))
             = Functions.consents_added (Functions.countly w) ++ Functions.consents_given l).
  { induction l as [|o l IH] using rev_ind; [now rewrite app_nil_r|].
    rewrite functions_run_snoc, perform_consents, IH.
    unfold Functions.consents_given. rewrite flat_map_app. simpl.
    now rewrite app_nil_r, app_assoc. }
  split; [apply H|]. exact (H [Functions.Accept; Functions.Decline]).
Qed.

(** ** The ledger depends on the consent operations only *)

Section LedgerAlone.
Implicit Types (this : MetricsProvider) (o : op).

Lemma reconcile_ledger consent names : forall this,
  _consentGranted (reconcile consent names this)
  = fold_left
      (fun s groupName =>
         if JsSet.has groupName (JsSet.of_array consent)
         then JsSet.add groupName s
         else JsSet.delete groupName s)
      names (_consentGranted this).
Proof.
  induction names as [|k names IH]; intros this; [reflexivity|].
  unfold reconcile in *. simpl. rewrite IH.
  destruct (JsSet.has k (JsSet.of_array consent)).
  - now rewrite addConsent_granted.
  - now rewrite removeConsent_granted.
Qed.

Lemma perform_ledger this o :
  _consentGranted (perform this o) = ledger_step (_consentGranted this) o.
Proof.
  pose proof (perform_other this o) as Hother.
  destruct o; try (exact (proj1 Hother)); cbn [perform ledger_step].
  - apply addConsent_granted.
  - apply removeConsent_granted.
  - rewrite updateConsent_reconcile. apply reconcile_ledger.
Qed.

Lemma run_ledger ops : forall this,
  _consentGranted (run ops this) = fold_left ledger_step ops (_consentGranted this).
Proof.
  induction ops as [|o ops IH]; intros this; [reflexivity|].
  unfold run in *. simpl. now rewrite IH, perform_ledger.
Qed.

Lemma ledger_steps_filter ops : forall g,
  fold_left ledger_step (filter is_consent_op ops) g = fold_left ledger_step ops g.
Proof.
  induction ops as [|o ops IH]; intros g; [reflexivity|].
  destruct o; simpl; apply IH.
Qed.

End LedgerAlone.

(** X18. The ledger is decided by the earlier ledger and the consent
    operations alone: two facades that hold the same ledger, whatever their
    service, storage provider and session state, hold the same ledger again
    after the same [addConsent], [removeConsent] and [updateConsent] calls,
    with any other public operations run in between on either. *)
Theorem ledger_depends_on_consent_operations_only
    (ops ops' : list op) (this this' : MetricsProvider) :
  consentGranted this = consentGranted this' ->
  filter is_consent_op ops = filter is_consent_op ops' ->
  consentGranted (run ops this) = consentGranted (run ops' this').
Proof.
  unfold consentGranted, JsSet.to_array. intros Hsame Hops.
  rewrite !run_ledger, <- (ledger_steps_filter ops), <- (ledger_steps_filter ops').
  now rewrite Hsame, Hops.
Qed.

Lemma ledger_depends_on_consent_operations_only_witness :
  consentGranted (constructor sample_defaults with_performance_stored)
  = consentGranted
      (addConsent (One "performance")
         (constructor sample_defaults (sample_options None)))
  /\ consentGranted
       (run [OpStartSession None None; OpUpdateConsent ["ux"]; OpTrackView None None None]
            (constructor sample_defaults with_performance_stored))
     = consentGranted
         (run [OpUpdateConsent ["ux"]; OpSetupAutoTrack]
              (addConsent (One "performance")
                 (constructor sample_defaults (sample_options None)))).
Proof.
  assert (H : consentGranted (constructor sample_defaults with_performance_stored)
              = consentGranted
                  (addConsent (One "performance")
                     (constructor sample_defaults (sample_options None)))).
  { vm_compute. reflexivity. }
  split; [exact H|].
  exact (ledger_depends_on_consent_operations_only
           [OpStartSession None None; OpUpdateConsent ["ux"]; OpTrackView None None None]
           [OpUpdateConsent ["ux"]; OpSetupAutoTrack]
           (constructor sample_defaults with_performance_stored)
           (addConsent (One "performance")
              (constructor sample_defaults (sample_options None)))
           H eq_refl).
Defined.
